(** * Digital zoom camera: the controller of [src/index.tsx] in Rocq

    The page script is an event-driven controller over a handful of
    module-level variables and DOM elements.  It is embedded here with
    explicit state passing:

    - JavaScript numbers are binary64 floats ([PrimFloat.float]);
    - the module-level [let] variables and the DOM elements the script
      holds are fields of one [State] record;
    - calls into the platform that leave an observable mark
      ([console.error], [track.stop()], [drawImage], [toDataURL],
      [createObjectURL], [link.click()], ...) are appended to the
      [effects] log of the state, newest first;
    - an [async] function is a resumption ([Async]): it runs to its next
      [await], hands a [Request] to the platform, and is resumed later with
      the request's [Outcome] on the state of that later moment;
    - the page as a whole is a transition system over [Config] (state plus
      suspended resumptions) driven by user and platform [Event]s. *)

From Stdlib Require Import String Ascii List Bool Arith PeanoNat ZArith Lia.
From Stdlib Require Import Strings.Byte DecimalString.
From Stdlib Require Import PrimFloat Floats.FloatOps Floats.SpecFloat Uint63.
Import ListNotations.

Set Warnings "-inexact-float".
Local Open Scope list_scope.
Local Open Scope string_scope.

(** ** Values the script handles *)

Inductive DeviceKind := audioinput | audiooutput | videoinput.

Definition DeviceKind_eqb (a b : DeviceKind) : bool :=
  match a, b with
  | audioinput, audioinput | audiooutput, audiooutput | videoinput, videoinput => true
  | _, _ => false
  end.

(** [MediaDeviceInfo], as returned by [enumerateDevices]. *)
Record MediaDeviceInfo := {
  deviceId : string;
  kind : DeviceKind;
  label : string
}.

Inductive TrackKind := AudioTrack | VideoTrack.

(** A track; [settingsDeviceId] is [track.getSettings().deviceId]. *)
Record MediaStreamTrack := {
  trackId : nat;
  trackKind : TrackKind;
  settingsDeviceId : option string
}.

Record MediaStream := { getTracks : list MediaStreamTrack }.

Definition isVideoTrack (t : MediaStreamTrack) : bool :=
  match trackKind t with VideoTrack => true | AudioTrack => false end.

Definition isAudioTrack (t : MediaStreamTrack) : bool :=
  match trackKind t with AudioTrack => true | VideoTrack => false end.

Definition getVideoTracks (ms : MediaStream) : list MediaStreamTrack :=
  filter isVideoTrack (getTracks ms).

Definition getAudioTracks (ms : MediaStream) : list MediaStreamTrack :=
  filter isAudioTrack (getTracks ms).

(** A [Blob]: its bytes and its MIME type; [size] is the number of bytes. *)
Record Blob := {
  blobBytes : list byte;
  blobType : string
}.

Definition size (b : Blob) : nat := length (blobBytes b).

(** [new Blob(parts, { type })]: the parts' bytes, concatenated in order. *)
Definition newBlob (parts : list Blob) (type : string) : Blob :=
  {| blobBytes := concat (map blobBytes parts); blobType := type |}.

(** The recorder object.  [finalizing] is the interval between [stop()] and
    the delivery of the [stop] event it queues. *)
Inductive RecorderPhase := inactive | recording | finalizing.

Record MediaRecorder := {
  recStream : MediaStream;
  recMimeType : string;
  recPhase : RecorderPhase
}.

Inductive MediaKind := Photo | Video.

(** What a [catch] clause can receive: an [Error] object with a message, or
    some other thrown value ([err instanceof Error] is false). *)
Inductive Thrown :=
| ErrorObject (message : string)
| OtherValue.

(** Constraints handed to [getUserMedia]. *)
Record Constraints := {
  idealWidth : nat;
  idealHeight : nat;
  exactDeviceId : option string;
  audio : bool
}.

(** ** The page: elements and platform log *)

(** The elements the script reaches, named as its constants are.  The two
    [span]s are the results of [querySelector('span')] on their buttons and
    [selectorContainer] is [.camera-selector-container]. *)
Inductive ElemId :=
| captureButton | recordButton | recordButtonSpan | switchCameraButton
| saveButton | saveButtonSpan | zoomSlider | zoomValueDisplay
| errorMsgElement | cameraSelect | selectorContainer | photo | recordedVideo.

Definition ElemId_eqb (a b : ElemId) : bool :=
  match a, b with
  | captureButton, captureButton | recordButton, recordButton
  | recordButtonSpan, recordButtonSpan | switchCameraButton, switchCameraButton
  | saveButton, saveButton | saveButtonSpan, saveButtonSpan
  | zoomSlider, zoomSlider | zoomValueDisplay, zoomValueDisplay
  | errorMsgElement, errorMsgElement | cameraSelect, cameraSelect
  | selectorContainer, selectorContainer | photo, photo
  | recordedVideo, recordedVideo => true
  | _, _ => false
  end.

(** The properties of an element that the script reads or writes. *)
Record Element := {
  hidden : bool;
  disabled : bool;
  textContent : string;
  value : string;
  src : string;
  classList : list string;
  ariaLabel : string
}.

Definition set_hidden (b : bool) (e : Element) : Element :=
  Build_Element b (disabled e) (textContent e) (value e) (src e) (classList e) (ariaLabel e).
Definition set_disabled (b : bool) (e : Element) : Element :=
  Build_Element (hidden e) b (textContent e) (value e) (src e) (classList e) (ariaLabel e).
Definition set_textContent (t : string) (e : Element) : Element :=
  Build_Element (hidden e) (disabled e) t (value e) (src e) (classList e) (ariaLabel e).
Definition set_value (v : string) (e : Element) : Element :=
  Build_Element (hidden e) (disabled e) (textContent e) v (src e) (classList e) (ariaLabel e).
Definition set_src (u : string) (e : Element) : Element :=
  Build_Element (hidden e) (disabled e) (textContent e) (value e) u (classList e) (ariaLabel e).
Definition set_ariaLabel (a : string) (e : Element) : Element :=
  Build_Element (hidden e) (disabled e) (textContent e) (value e) (src e) (classList e) a.

(** [classList.add] and [classList.remove]. *)
Definition classList_add (c : string) (e : Element) : Element :=
  Build_Element (hidden e) (disabled e) (textContent e) (value e) (src e)
    (if existsb (String.eqb c) (classList e) then classList e else classList e ++ [c])
    (ariaLabel e).
Definition classList_remove (c : string) (e : Element) : Element :=
  Build_Element (hidden e) (disabled e) (textContent e) (value e) (src e)
    (filter (fun x => negb (String.eqb c x)) (classList e))
    (ariaLabel e).

(** The [video] element and the display [canvas]. *)
Record VideoElement := {
  srcObject : option MediaStream;
  paused : bool;
  ended : bool;
  videoWidth : float;
  videoHeight : float
}.

Record CanvasElement := {
  width : float;
  height : float
}.

Inductive Surface := DisplayCanvas | TempCanvas.

(** Calls into the platform that the script makes for their effect. *)
Inductive Effect :=
| ConsoleError (msg : string) (detail : option Thrown)
| TrackStop (t : MediaStreamTrack)
| ClearRect (target : Surface) (x y w h : float)
| DrawImage (target : Surface) (sx sy sw sh dx dy dw dh : float)
| ToDataURL (type : string) (quality : float) (result : string)
| CreateObjectURL (b : Blob) (result : string)
| RecorderStarted (r : MediaRecorder)
| RecorderStopped (r : MediaRecorder)
| LinkClick (href download : string).

(** ** The state *)

Record State := {
  (* the module-level variables of the script *)
  currentStream : option MediaStream;
  currentZoom : float;
  hasStartedDrawing : bool;
  mediaRecorder : option MediaRecorder;
  recordedChunks : list Blob;
  isRecording : bool;
  mediaType : option MediaKind;
  videoDevices : list MediaDeviceInfo;
  currentDeviceIndex : nat;
  (* the page *)
  ctx : bool;                     (* [canvas.getContext('2d')] is not null *)
  hasSelectorContainer : bool;    (* [.camera-selector-container] exists *)
  dom : ElemId -> Element;
  cameraOptions : list (string * string);  (* [option]s: value, text *)
  video : VideoElement;
  canvas : CanvasElement;
  (* the platform *)
  pendingFrames : nat;            (* callbacks queued by requestAnimationFrame *)
  effects : list Effect           (* newest first *)
}.

Definition set_currentStream (x : option MediaStream) (s : State) : State :=
  Build_State x (currentZoom s) (hasStartedDrawing s) (mediaRecorder s)
    (recordedChunks s) (isRecording s) (mediaType s) (videoDevices s)
    (currentDeviceIndex s) (ctx s) (hasSelectorContainer s) (dom s)
    (cameraOptions s) (video s) (canvas s) (pendingFrames s) (effects s).
Definition set_currentZoom (x : float) (s : State) : State :=
  Build_State (currentStream s) x (hasStartedDrawing s) (mediaRecorder s)
    (recordedChunks s) (isRecording s) (mediaType s) (videoDevices s)
    (currentDeviceIndex s) (ctx s) (hasSelectorContainer s) (dom s)
    (cameraOptions s) (video s) (canvas s) (pendingFrames s) (effects s).
Definition set_hasStartedDrawing (x : bool) (s : State) : State :=
  Build_State (currentStream s) (currentZoom s) x (mediaRecorder s)
    (recordedChunks s) (isRecording s) (mediaType s) (videoDevices s)
    (currentDeviceIndex s) (ctx s) (hasSelectorContainer s) (dom s)
    (cameraOptions s) (video s) (canvas s) (pendingFrames s) (effects s).
Definition set_mediaRecorder (x : option MediaRecorder) (s : State) : State :=
  Build_State (currentStream s) (currentZoom s) (hasStartedDrawing s) x
    (recordedChunks s) (isRecording s) (mediaType s) (videoDevices s)
    (currentDeviceIndex s) (ctx s) (hasSelectorContainer s) (dom s)
    (cameraOptions s) (video s) (canvas s) (pendingFrames s) (effects s).
Definition set_recordedChunks (x : list Blob) (s : State) : State :=
  Build_State (currentStream s) (currentZoom s) (hasStartedDrawing s) (mediaRecorder s)
    x (isRecording s) (mediaType s) (videoDevices s)
    (currentDeviceIndex s) (ctx s) (hasSelectorContainer s) (dom s)
    (cameraOptions s) (video s) (canvas s) (pendingFrames s) (effects s).
Definition set_isRecording (x : bool) (s : State) : State :=
  Build_State (currentStream s) (currentZoom s) (hasStartedDrawing s) (mediaRecorder s)
    (recordedChunks s) x (mediaType s) (videoDevices s)
    (currentDeviceIndex s) (ctx s) (hasSelectorContainer s) (dom s)
    (cameraOptions s) (video s) (canvas s) (pendingFrames s) (effects s).
Definition set_mediaType (x : option MediaKind) (s : State) : State :=
  Build_State (currentStream s) (currentZoom s) (hasStartedDrawing s) (mediaRecorder s)
    (recordedChunks s) (isRecording s) x (videoDevices s)
    (currentDeviceIndex s) (ctx s) (hasSelectorContainer s) (dom s)
    (cameraOptions s) (video s) (canvas s) (pendingFrames s) (effects s).
Definition set_videoDevices (x : list MediaDeviceInfo) (s : State) : State :=
  Build_State (currentStream s) (currentZoom s) (hasStartedDrawing s) (mediaRecorder s)
    (recordedChunks s) (isRecording s) (mediaType s) x
    (currentDeviceIndex s) (ctx s) (hasSelectorContainer s) (dom s)
    (cameraOptions s) (video s) (canvas s) (pendingFrames s) (effects s).
Definition set_currentDeviceIndex (x : nat) (s : State) : State :=
  Build_State (currentStream s) (currentZoom s) (hasStartedDrawing s) (mediaRecorder s)
    (recordedChunks s) (isRecording s) (mediaType s) (videoDevices s)
    x (ctx s) (hasSelectorContainer s) (dom s)
    (cameraOptions s) (video s) (canvas s) (pendingFrames s) (effects s).
Definition set_dom (x : ElemId -> Element) (s : State) : State :=
  Build_State (currentStream s) (currentZoom s) (hasStartedDrawing s) (mediaRecorder s)
    (recordedChunks s) (isRecording s) (mediaType s) (videoDevices s)
    (currentDeviceIndex s) (ctx s) (hasSelectorContainer s) x
    (cameraOptions s) (video s) (canvas s) (pendingFrames s) (effects s).
Definition set_cameraOptions (x : list (string * string)) (s : State) : State :=
  Build_State (currentStream s) (currentZoom s) (hasStartedDrawing s) (mediaRecorder s)
    (recordedChunks s) (isRecording s) (mediaType s) (videoDevices s)
    (currentDeviceIndex s) (ctx s) (hasSelectorContainer s) (dom s)
    x (video s) (canvas s) (pendingFrames s) (effects s).
Definition set_video (x : VideoElement) (s : State) : State :=
  Build_State (currentStream s) (currentZoom s) (hasStartedDrawing s) (mediaRecorder s)
    (recordedChunks s) (isRecording s) (mediaType s) (videoDevices s)
    (currentDeviceIndex s) (ctx s) (hasSelectorContainer s) (dom s)
    (cameraOptions s) x (canvas s) (pendingFrames s) (effects s).
Definition set_canvas (x : CanvasElement) (s : State) : State :=
  Build_State (currentStream s) (currentZoom s) (hasStartedDrawing s) (mediaRecorder s)
    (recordedChunks s) (isRecording s) (mediaType s) (videoDevices s)
    (currentDeviceIndex s) (ctx s) (hasSelectorContainer s) (dom s)
    (cameraOptions s) (video s) x (pendingFrames s) (effects s).
Definition set_pendingFrames (x : nat) (s : State) : State :=
  Build_State (currentStream s) (currentZoom s) (hasStartedDrawing s) (mediaRecorder s)
    (recordedChunks s) (isRecording s) (mediaType s) (videoDevices s)
    (currentDeviceIndex s) (ctx s) (hasSelectorContainer s) (dom s)
    (cameraOptions s) (video s) (canvas s) x (effects s).
Definition set_effects (x : list Effect) (s : State) : State :=
  Build_State (currentStream s) (currentZoom s) (hasStartedDrawing s) (mediaRecorder s)
    (recordedChunks s) (isRecording s) (mediaType s) (videoDevices s)
    (currentDeviceIndex s) (ctx s) (hasSelectorContainer s) (dom s)
    (cameraOptions s) (video s) (canvas s) (pendingFrames s) x.

(** [el.prop = v]: update one element of the page. *)
Definition setEl (id : ElemId) (f : Element -> Element) (s : State) : State :=
  set_dom (fun j => if ElemId_eqb j id then f (dom s j) else dom s j) s.

(** Record a platform call. *)
Definition log (e : Effect) (s : State) : State :=
  set_effects (e :: effects s) s.

Definition requestAnimationFrame (s : State) : State :=
  set_pendingFrames (S (pendingFrames s)) s.

(** ** The host: what the script assumes of browser and markup

    Functions of the JavaScript runtime that the script calls and whose
    results it stores, and the parts of [index.html] it starts from.  The
    markup is not among the sources, so it is a parameter. *)
Class Host := {
  parseFloat : string -> float;
  toFixed : float -> nat -> string;          (* [x.toFixed(digits)] *)
  toUnsignedLong : float -> float;           (* what [canvas.width = x] stores *)
  locationHref : string;                     (* [window.location.href] *)
  nullDerefMessage : string;                 (* message of the TypeError of [null.f()] *)
  markup : ElemId -> Element;                (* the elements as [index.html] declares them *)
  markupHasContext : bool;
  markupHasSelectorContainer : bool
}.

(** ** Small helpers for JavaScript idioms *)

(** A string in a condition: the empty string is falsy. *)
Definition truthy (x : string) : bool := negb (String.eqb x EmptyString).

Definition newline : string := String (ascii_of_nat 10) EmptyString.

(** [String(n)] for a non-negative integer. *)
Definition decimal (n : nat) : string := NilZero.string_of_uint (Nat.to_uint n).

(** [str.replace(/[:.]/g, '-')]. *)
Fixpoint replaceColonDot (str : string) : string :=
  match str with
  | EmptyString => EmptyString
  | String c rest =>
      String (if Ascii.eqb c ":" || Ascii.eqb c "." then "-"%char else c)
             (replaceColonDot rest)
  end.

(** [arr.findIndex(p)], [None] for -1. *)
Fixpoint findIndex {A : Type} (p : A -> bool) (l : list A) : option nat :=
  match l with
  | [] => None
  | x :: rest => if p x then Some 0 else option_map S (findIndex p rest)
  end.

(** The message built in both [catch] clauses:
    [if (err instanceof Error) message += `\nError: ${err.message}`]. *)
Definition withErrorDetail (message : string) (err : Thrown) : string :=
  match err with
  | ErrorObject m => message ++ newline ++ "Error: " ++ m
  | OtherValue => message
  end.

(** What the platform guarantees of the two URL factories the script uses:
    [canvas.toDataURL] returns a [data:] URL and [URL.createObjectURL] a
    [blob:] URL.  The event that triggers the call supplies the rest. *)
Definition dataURL (encoded : string) : string := "data:" ++ encoded.
Definition blobURL (id : string) : string := "blob:" ++ id.

(** ** The synchronous functions of the script *)

Section Script.
Context {host : Host}.

(** [showError], lines 36-40. *)
Definition showError (message : string) (s : State) : State :=
  let s := setEl errorMsgElement (set_textContent message) s in
  let s := setEl errorMsgElement (set_hidden false) s in
  log (ConsoleError message None) s.

(** [stopCurrentStream], lines 45-50. *)
Definition stopCurrentStream (s : State) : State :=
  match currentStream s with
  | Some stream =>
      let s := fold_left (fun s track => log (TrackStop track) s) (getTracks stream) s in
      set_currentStream None s
  | None => s
  end.

(** [drawFrame], lines 144-159. *)
Definition drawFrame (s : State) : State :=
  if negb (ctx s) || paused (video s) || ended (video s) then
    requestAnimationFrame s
  else
    let sourceWidth := (videoWidth (video s) / currentZoom s)%float in
    let sourceHeight := (videoHeight (video s) / currentZoom s)%float in
    let sourceX := ((videoWidth (video s) - sourceWidth) / 2)%float in
    let sourceY := ((videoHeight (video s) - sourceHeight) / 2)%float in
    let s := log (ClearRect DisplayCanvas 0 0 (width (canvas s)) (height (canvas s))) s in
    let s := log (DrawImage DisplayCanvas sourceX sourceY sourceWidth sourceHeight
                    0 0 (width (canvas s)) (height (canvas s))) s in
    requestAnimationFrame s.

(** [takePicture], lines 164-198.  [tempCtx] tells whether the temporary
    canvas yields a 2d context; [encoded] is what [toDataURL] encodes. *)
Definition takePicture (tempCtx : bool) (encoded : string) (s : State) : State :=
  if negb (ctx s) then s
  else
    let sourceWidth := (videoWidth (video s) / currentZoom s)%float in
    let sourceHeight := (videoHeight (video s) / currentZoom s)%float in
    let tempCanvas :=
      {| width := toUnsignedLong sourceWidth; height := toUnsignedLong sourceHeight |} in
    if tempCtx then
      let sourceX := ((videoWidth (video s) - sourceWidth) / 2)%float in
      let sourceY := ((videoHeight (video s) - sourceHeight) / 2)%float in
      let s := log (DrawImage TempCanvas sourceX sourceY sourceWidth sourceHeight
                      0 0 (width tempCanvas) (height tempCanvas)) s in
      let data := dataURL encoded in
      let s := log (ToDataURL "image/jpeg" 0.9 data) s in
      let s := setEl photo (set_src data) s in
      let s := setEl photo (set_hidden false) s in
      let s := setEl recordedVideo (set_hidden true) s in
      let s := setEl saveButton (set_hidden false) s in
      let s := setEl saveButtonSpan (set_textContent "写真保存") s in
      set_mediaType (Some Photo) s
    else s.

(** [updateRecordingUI], lines 274-295. *)
Definition updateRecordingUI (s : State) : State :=
  if isRecording s then
    let s := setEl recordButton (classList_add "recording") s in
    let s := setEl recordButtonSpan (set_textContent "停止") s in
    let s := setEl recordButton (set_ariaLabel "録画を停止する") s in
    let s := setEl captureButton (set_disabled true) s in
    let s := setEl switchCameraButton (set_disabled true) s in
    let s := setEl cameraSelect (set_disabled true) s in
    setEl zoomSlider (set_disabled false) s
  else
    let s := setEl recordButton (classList_remove "recording") s in
    let s := setEl recordButtonSpan (set_textContent "録画") s in
    let s := setEl recordButton (set_ariaLabel "録画を開始する") s in
    let s := setEl captureButton (set_disabled false) s in
    let s := setEl switchCameraButton (set_disabled (length (videoDevices s) <=? 1)%nat) s in
    let s := setEl cameraSelect (set_disabled (length (videoDevices s) <=? 1)%nat) s in
    setEl zoomSlider (set_disabled false) s.

(** [mediaRecorder.ondataavailable], lines 238-242. *)
Definition ondataavailable (data : Blob) (s : State) : State :=
  if (0 <? size data)%nat then set_recordedChunks (recordedChunks s ++ [data]) s
  else s.

(** [mediaRecorder.onstop], lines 244-253; [id] is what [createObjectURL]
    puts after [blob:]. *)
Definition onstop (id : string) (s : State) : State :=
  let videoBlob := newBlob (recordedChunks s) "video/mp4" in
  let videoUrl := blobURL id in
  let s := log (CreateObjectURL videoBlob videoUrl) s in
  let s := setEl recordedVideo (set_src videoUrl) s in
  let s := setEl recordedVideo (set_hidden false) s in
  let s := setEl photo (set_hidden true) s in
  let s := setEl saveButton (set_hidden false) s in
  let s := setEl saveButtonSpan (set_textContent "動画保存") s in
  set_mediaType (Some Video) s.

(** How the platform answers the two calls of [startRecording] that may
    throw: [new MediaRecorder(...)] (caught by the script) and
    [mediaRecorder.start()] (not caught). *)
Inductive RecorderVerdict :=
| ConstructorThrows (e : Thrown)
| StartThrows
| Starts.

Definition mimeType : string := "video/webm; codecs=vp9,opus".

(** The two messages of [startRecording], lines 216 and 234. *)
Definition cannotStartMessage : string :=
  "録画を開始できません: カメラストリームまたは描画コンテキストが利用できません。".
Definition unsupportedMessage : string :=
  "お使いのブラウザはこの形式での録画をサポートしていません: " ++ mimeType.

(** [startRecording], lines 214-258.  [canvasStream] is the result of
    [canvas.captureStream()]. *)
Definition startRecording (canvasStream : MediaStream) (verdict : RecorderVerdict)
    (s : State) : State :=
  match currentStream s, ctx s with
  | Some stream, true =>
      let audioTracks := getAudioTracks stream in
      let combinedStream := {| getTracks := getVideoTracks canvasStream ++ audioTracks |} in
      let s := set_recordedChunks [] s in
      match verdict with
      | ConstructorThrows e =>
          let s := log (ConsoleError "Exception while creating MediaRecorder:" (Some e)) s in
          showError unsupportedMessage s
      | StartThrows =>
          (* the recorder is stored, [start()] throws, the handler ends there *)
          set_mediaRecorder
            (Some {| recStream := combinedStream; recMimeType := mimeType;
                     recPhase := inactive |}) s
      | Starts =>
          let r := {| recStream := combinedStream; recMimeType := mimeType;
                      recPhase := recording |} in
          let s := set_mediaRecorder (Some r) s in
          let s := log (RecorderStarted r) s in
          let s := set_isRecording true s in
          updateRecordingUI s
      end
  | _, _ => showError cannotStartMessage s
  end.

(** [mediaRecorder.stop()]: a recording recorder queues its [stop] event,
    any other one is left alone. *)
Definition recorderStop (r : MediaRecorder) : MediaRecorder :=
  match recPhase r with
  | recording => {| recStream := recStream r; recMimeType := recMimeType r;
                    recPhase := finalizing |}
  | _ => r
  end.

(** [stopRecording], lines 263-269. *)
Definition stopRecording (s : State) : State :=
  match mediaRecorder s with
  | Some r =>
      let s := set_mediaRecorder (Some (recorderStop r)) s in
      let s := log (RecorderStopped r) s in
      let s := set_isRecording false s in
      updateRecordingUI s
  | None => s
  end.

(** [toggleRecording], lines 203-209. *)
Definition toggleRecording (canvasStream : MediaStream) (verdict : RecorderVerdict)
    (s : State) : State :=
  if negb (isRecording s) then startRecording canvasStream verdict s
  else stopRecording s.

(** [saveMedia], lines 301-318; [iso] is [new Date().toISOString()].  The
    anchor element is created, clicked and removed again: what remains is the
    click, with the [href] and [download] it carried. *)
Definition saveMedia (iso : string) (s : State) : State :=
  let timestamp := replaceColonDot iso in
  match mediaType s with
  | Some Photo =>
      if truthy (src (dom s photo)) && negb (String.eqb (src (dom s photo)) locationHref)
      then log (LinkClick (src (dom s photo)) ("photo-" ++ timestamp ++ ".jpg")) s
      else s
  | Some Video =>
      if truthy (src (dom s recordedVideo))
      then log (LinkClick (src (dom s recordedVideo)) ("video-" ++ timestamp ++ ".mp4")) s
      else s
  | None => s
  end.

(** [handleZoomChange], lines 323-327; the event's target is the slider. *)
Definition handleZoomChange (s : State) : State :=
  let s := set_currentZoom (parseFloat (value (dom s zoomSlider))) s in
  setEl zoomValueDisplay (set_textContent (toFixed (currentZoom s) 1)) s.

(** The listener of the video's [playing] event, lines 363-370. *)
Definition onplaying (s : State) : State :=
  let s := set_canvas
             {| width := toUnsignedLong (videoWidth (video s) / 2)%float;
                height := toUnsignedLong (videoHeight (video s) / 2)%float |} s in
  if negb (hasStartedDrawing s) then
    let s := requestAnimationFrame s in
    set_hasStartedDrawing true s
  else s.

End Script.

(** ** Asynchronous functions

    An [async] function runs synchronously up to an [await] on a platform
    promise.  There it is suspended with the state it has produced so far;
    when the promise settles it is resumed on the state of that moment,
    which other handlers may have changed in between. *)

Inductive Request : Type -> Type :=
| EnumerateDevices : Request (list MediaDeviceInfo)
| GetUserMedia (constraints : Constraints) : Request MediaStream
| VideoPlay : Request unit.

Inductive Outcome (A : Type) : Type :=
| Fulfilled (a : A)
| Rejected (err : Thrown).
Arguments Fulfilled {A} a.
Arguments Rejected {A} err.

Inductive Async : Type :=
| Done (s : State)
| Await {A : Type} (s : State) (req : Request A) (k : Outcome A -> State -> Async).

(** [await m(); rest]: [rest] runs once [m] has run to its end. *)
Fixpoint andThen (m : Async) (rest : State -> Async) : Async :=
  match m with
  | Done s => rest s
  | Await s req k => Await s req (fun r s' => andThen (k r s') rest)
  end.

Section AsyncScript.
Context {host : Host}.

(** [cameraSelect.innerHTML = '']: no option is left, the value reads empty. *)
Definition clearOptions (s : State) : State :=
  let s := set_cameraOptions [] s in
  setEl cameraSelect (set_value EmptyString) s.

(** [cameraSelect.appendChild(option)]: the first option of a drop-down is
    selected when none is. *)
Definition appendOption (optionValue optionText : string) (s : State) : State :=
  let first := match cameraOptions s with [] => true | _ => false end in
  let s := set_cameraOptions (cameraOptions s ++ [(optionValue, optionText)]) s in
  if first then setEl cameraSelect (set_value optionValue) s else s.

(** [cameraSelect.value = v]: selects the option with that value, and none
    (the value then reads empty) when there is no such option. *)
Definition selectValue (v : string) (s : State) : State :=
  if existsb (fun o => String.eqb (fst o) v) (cameraOptions s)
  then setEl cameraSelect (set_value v) s
  else setEl cameraSelect (set_value EmptyString) s.

(** The [forEach] of lines 69-74, from [index] on. *)
Fixpoint appendDeviceOptions (index : nat) (devices : list MediaDeviceInfo)
    (s : State) : State :=
  match devices with
  | [] => s
  | device :: rest =>
      let text := if truthy (label device) then label device
                  else "カメラ " ++ decimal (index + 1) in
      appendDeviceOptions (S index) rest (appendOption (deviceId device) text s)
  end.

(** [.hidden = b] on [.camera-selector-container], when the page has one. *)
Definition hideSelectorContainer (b : bool) (s : State) : State :=
  if hasSelectorContainer s then setEl selectorContainer (set_hidden b) s else s.

(** [populateCameraList], lines 55-88. *)
Definition populateCameraList (s : State) : Async :=
  Await s EnumerateDevices (fun result s =>
    match result with
    | Fulfilled devices =>
        let s := set_videoDevices
                   (filter (fun device => DeviceKind_eqb (kind device) videoinput) devices) s in
        let s := clearOptions s in
        if (length (videoDevices s) =? 0)%nat then
          let s := setEl switchCameraButton (set_hidden true) s in
          let s := hideSelectorContainer true s in
          Done (showError "利用可能なカメラが見つかりません。" s)
        else
          let s := appendDeviceOptions 0 (videoDevices s) s in
          let s := setEl switchCameraButton
                     (set_hidden (length (videoDevices s) <=? 1)%nat) s in
          Done (hideSelectorContainer (length (videoDevices s) <=? 1)%nat s)
    | Rejected err =>
        Done (showError
                (withErrorDetail "カメラデバイスの取得中にエラーが発生しました。" err) s)
    end).

(** The [catch] clause of [initCamera], lines 132-138. *)
Definition initCameraFailed (err : Thrown) (s : State) : State :=
  showError
    (withErrorDetail
       "カメラまたはマイクにアクセスできませんでした。デバイスが接続されており、アクセスが許可されていることを確認してください。"
       err) s.

(** Lines 121-130 of [initCamera]: align the device index and the drop-down
    with the stream obtained.  [currentStream] is read again here; were it
    null, or without a video track, the property access throws a TypeError,
    which the [catch] clause receives. *)
Definition syncDeviceSelection (s : State) : State :=
  match currentStream s with
  | None => initCameraFailed (ErrorObject nullDerefMessage) s
  | Some stream =>
      match getVideoTracks stream with
      | [] => initCameraFailed (ErrorObject nullDerefMessage) s
      | currentTrack :: _ =>
          match settingsDeviceId currentTrack with
          | Some id =>
              if truthy id then
                match findIndex (fun d => String.eqb (deviceId d) id) (videoDevices s) with
                | Some idx =>
                    let s := set_currentDeviceIndex idx s in
                    selectValue id s
                | None => s
                end
              else s
          | None => s
          end
      end
  end.

(** The [deviceId] constraint chosen at lines 102-106. *)
Definition chooseDevice (deviceId' : option string) (s : State) : option string :=
  match deviceId' with
  | Some d =>
      if truthy d then Some d
      else match videoDevices s with d0 :: _ => Some (deviceId d0) | [] => None end
  | None => match videoDevices s with d0 :: _ => Some (deviceId d0) | [] => None end
  end.

(** [initCamera], lines 94-139. *)
Definition initCamera (deviceId' : option string) (s : State) : Async :=
  let s := stopCurrentStream s in
  let constraints :=
    {| idealWidth := 1280; idealHeight := 720;
       exactDeviceId := chooseDevice deviceId' s; audio := true |} in
  Await s (GetUserMedia constraints) (fun result s =>
    match result with
    | Rejected err => Done (initCameraFailed err s)
    | Fulfilled stream =>
        let s := set_currentStream (Some stream) s in
        let s := set_video
                   {| srcObject := currentStream s; paused := paused (video s);
                      ended := ended (video s); videoWidth := videoWidth (video s);
                      videoHeight := videoHeight (video s) |} s in
        Await s VideoPlay (fun played s =>
          match played with
          | Rejected err => Done (initCameraFailed err s)
          | Fulfilled _ =>
              let labelsMissing :=
                match videoDevices s with
                | d0 :: _ => negb (truthy (label d0))
                | [] => false
                end in
              andThen (if labelsMissing then populateCameraList s else Done s)
                      (fun s => Done (syncDeviceSelection s))
          end)
    end).

(** [switchCamera], lines 332-342. *)
Definition switchCamera (s : State) : Async :=
  if (1 <? length (videoDevices s))%nat then
    let s := set_currentDeviceIndex
               ((currentDeviceIndex s + 1) mod length (videoDevices s)) s in
    match nth_error (videoDevices s) (currentDeviceIndex s) with
    | Some device =>
        let s := selectValue (deviceId device) s in
        let s := setEl zoomSlider (set_value "1") s in
        let s := set_currentZoom 1 s in
        let s := setEl zoomValueDisplay (set_textContent (toFixed (currentZoom s) 1)) s in
        initCamera (Some (deviceId device)) s
    | None => Done s   (* not reached: the index is below the length *)
    end
  else Done s.

(** [handleCameraSelectChange], lines 347-353. *)
Definition handleCameraSelectChange (s : State) : Async :=
  let deviceId' := value (dom s cameraSelect) in
  let s := setEl zoomSlider (set_value "1") s in
  let s := set_currentZoom 1 s in
  let s := setEl zoomValueDisplay (set_textContent (toFixed (currentZoom s) 1)) s in
  initCamera (Some deviceId') s.

(** [startApp], lines 376-379. *)
Definition startApp (s : State) : Async :=
  andThen (populateCameraList s) (fun s => initCamera None s).

End AsyncScript.

(** ** The page as a transition system *)

(** A suspended [async] function: the request it waits for and the rest. *)
Inductive Suspended : Type :=
| Suspend {A : Type} (req : Request A) (k : Outcome A -> State -> Async).

Record Config := {
  st : State;
  pending : list Suspended
}.

(** How the platform settles a request, as carried by an event. *)
Inductive Answer :=
| GotDevices (devices : list MediaDeviceInfo)
| GotStream (stream : MediaStream)
| Played
| Failed (err : Thrown).

(** An answer of the right shape for a request is an outcome of it. *)
Definition deliver {A : Type} (req : Request A) (a : Answer) : option (Outcome A) :=
  match req in Request T return option (Outcome T) with
  | EnumerateDevices =>
      match a with
      | GotDevices l => Some (Fulfilled l)
      | Failed e => Some (Rejected e)
      | _ => None
      end
  | GetUserMedia _ =>
      match a with
      | GotStream ms => Some (Fulfilled ms)
      | Failed e => Some (Rejected e)
      | _ => None
      end
  | VideoPlay =>
      match a with
      | Played => Some (Fulfilled tt)
      | Failed e => Some (Rejected e)
      | _ => None
      end
  end.

(** What can happen to the page: the six listeners of lines 356-361, the
    [playing] and [beforeunload] listeners, the animation frame callback, the
    two recorder handlers, and the settling of an awaited promise.  Each
    event carries what the platform contributes to the handler's run. *)
Inductive Event :=
| EvCaptureClick (tempCtx : bool) (encoded : string)
| EvRecordClick (canvasStream : MediaStream) (verdict : RecorderVerdict)
| EvSwitchClick
| EvZoomInput (v : string)
| EvSaveClick (iso : string)
| EvSelectChange (v : string)
| EvPlaying (w h : float)
| EvVideoStatus (isPaused isEnded : bool)
| EvAnimationFrame
| EvDataAvailable (data : Blob)
| EvRecorderStop (id : string)
| EvBeforeUnload
| EvSettle (i : nat) (a : Answer).

(** A synchronous handler has run. *)
Definition ran (s : State) (c : Config) : Config :=
  {| st := s; pending := pending c |}.

(** An asynchronous function has run as far as it can: it is over, or it is
    added to [rest], the functions that wait. *)
Definition park (m : Async) (rest : list Suspended) : Config :=
  match m with
  | Done s => {| st := s; pending := rest |}
  | Await s req k => {| st := s; pending := rest ++ [Suspend req k] |}
  end.

Fixpoint removeNth {A : Type} (i : nat) (l : list A) : list A :=
  match i, l with
  | _, [] => []
  | O, _ :: rest => rest
  | S j, x :: rest => x :: removeNth j rest
  end.

Definition recorderStopped (r : MediaRecorder) : MediaRecorder :=
  match recPhase r with
  | finalizing => {| recStream := recStream r; recMimeType := recMimeType r;
                     recPhase := inactive |}
  | _ => r
  end.

Section Page.
Context {host : Host}.

(** The page when the script starts: the variables as lines 21-29
    initialise them, the elements as the markup declares them. *)
Definition initialState : State :=
  {| currentStream := None;
     currentZoom := 1;
     hasStartedDrawing := false;
     mediaRecorder := None;
     recordedChunks := [];
     isRecording := false;
     mediaType := None;
     videoDevices := [];
     currentDeviceIndex := 0;
     ctx := markupHasContext;
     hasSelectorContainer := markupHasSelectorContainer;
     dom := markup;
     cameraOptions := [];
     video := {| srcObject := None; paused := true; ended := false;
                 videoWidth := 0; videoHeight := 0 |};
     canvas := {| width := 300; height := 150 |};
     pendingFrames := 0;
     effects := [] |}.

(** Line 381: [startApp()] runs to its first [await] while the script loads. *)
Definition boot : Config := park (startApp initialState) [].

(** One event.  A control that is disabled or hidden does not fire; a
    recorder event needs a recorder, a frame callback a request for one, a
    settlement a suspended function waiting for an answer of that shape.
    An event that cannot happen leaves the configuration as it is. *)
Definition step (ev : Event) (c : Config) : Config :=
  let s := st c in
  match ev with
  | EvCaptureClick tempCtx encoded =>
      if disabled (dom s captureButton) then c
      else ran (takePicture tempCtx encoded s) c
  | EvRecordClick canvasStream verdict =>
      if disabled (dom s recordButton) then c
      else ran (toggleRecording canvasStream verdict s) c
  | EvSwitchClick =>
      if disabled (dom s switchCameraButton) || hidden (dom s switchCameraButton) then c
      else park (switchCamera s) (pending c)
  | EvZoomInput v =>
      if disabled (dom s zoomSlider) then c
      else ran (handleZoomChange (setEl zoomSlider (set_value v) s)) c
  | EvSaveClick iso =>
      if disabled (dom s saveButton) || hidden (dom s saveButton) then c
      else ran (saveMedia iso s) c
  | EvSelectChange v =>
      if disabled (dom s cameraSelect)
         || negb (existsb (fun o => String.eqb (fst o) v) (cameraOptions s)) then c
      else park (handleCameraSelectChange (setEl cameraSelect (set_value v) s)) (pending c)
  | EvPlaying w h =>
      match srcObject (video s) with
      | Some stream =>
          let s := set_video {| srcObject := Some stream; paused := false; ended := false;
                                videoWidth := w; videoHeight := h |} s in
          ran (onplaying s) c
      | None => c
      end
  | EvVideoStatus isPaused isEnded =>
      ran (set_video {| srcObject := srcObject (video s); paused := isPaused;
                        ended := isEnded; videoWidth := videoWidth (video s);
                        videoHeight := videoHeight (video s) |} s) c
  | EvAnimationFrame =>
      match pendingFrames s with
      | S n => ran (drawFrame (set_pendingFrames n s)) c
      | O => c
      end
  | EvDataAvailable data =>
      match mediaRecorder s with
      | Some _ => ran (ondataavailable data s) c
      | None => c
      end
  | EvRecorderStop id =>
      match mediaRecorder s with
      | Some r => ran (onstop id (set_mediaRecorder (Some (recorderStopped r)) s)) c
      | None => c
      end
  | EvBeforeUnload => ran (stopCurrentStream s) c
  | EvSettle i a =>
      match nth_error (pending c) i with
      | Some (Suspend req k) =>
          match deliver req a with
          | Some outcome => park (k outcome s) (removeNth i (pending c))
          | None => c
          end
      | None => c
      end
  end.

(** A history of events, oldest first. *)
Definition exec (evs : list Event) (c : Config) : Config :=
  fold_left (fun c ev => step ev c) evs c.

(** The configurations the page can be in. *)
Definition reachable (c : Config) : Prop :=
  exists evs, c = exec evs boot.

End Page.

(** ** A sample host

    Modelled from the spec: [index.html] and the browser are not among the
    sources.  The spec names the controls (capture button, record toggle,
    camera switch, device dropdown, zoom slider, save button) and a message
    region; the sample page declares them with the defaults of HTML (nothing
    disabled) and hides what the script itself reveals later (the message,
    the photo, the recorded clip, the save button).  Its runtime functions
    cover simple decimal numbers.  The theorems below hold for every host;
    the sample one is for running the script on concrete histories. *)
Module Sample.

Definition digitOf (c : ascii) : option float :=
  match c with
  | "0"%char => Some 0%float | "1"%char => Some 1%float | "2"%char => Some 2%float
  | "3"%char => Some 3%float | "4"%char => Some 4%float | "5"%char => Some 5%float
  | "6"%char => Some 6%float | "7"%char => Some 7%float | "8"%char => Some 8%float
  | "9"%char => Some 9%float
  | _ => None
  end.

(** Digits, an optional point, digits; anything after that is ignored and a
    string without a leading digit is NaN. *)
Fixpoint parseDecimal (str : string) (acc : float) (scale : option float)
    (seen : bool) : float :=
  let finish := if seen then acc else nan in
  match str with
  | EmptyString => finish
  | String c rest =>
      match digitOf c, scale with
      | Some d, None => parseDecimal rest (acc * 10 + d)%float None true
      | Some d, Some k => parseDecimal rest (acc + d / (k * 10))%float (Some (k * 10)%float) true
      | None, None =>
          if Ascii.eqb c "." && seen then parseDecimal rest acc (Some 1%float) seen
          else finish
      | None, Some _ => finish
      end
  end.

(** The integer part of a finite number, 0 for NaN and the infinities. *)
Definition truncZ (x : float) : Z :=
  match Prim2SF x with
  | S754_finite sign m e =>
      let mag := if (0 <=? e)%Z then (Z.pos m * 2 ^ e)%Z else Z.shiftr (Z.pos m) (- e) in
      if sign then (- mag)%Z else mag
  | _ => 0%Z
  end.

Definition decimalZ (z : Z) : string := decimal (Z.to_nat z).

(** [x.toFixed(1)] for the numbers a zoom slider produces; other digit
    counts print the integer part. *)
Definition toFixedSample (x : float) (digits : nat) : string :=
  match digits with
  | 1%nat =>
      let tenths := truncZ (abs x * 10 + 0.5)%float in
      (if (x <? 0)%float then "-" else EmptyString)
        ++ decimalZ (tenths / 10) ++ "." ++ decimalZ (tenths mod 10)
  | _ => decimalZ (truncZ (abs x))
  end.

(** The conversion to [unsigned long] of a canvas dimension. *)
Definition toUnsignedLongSample (x : float) : float :=
  PrimFloat.of_uint63 (Uint63.of_Z (truncZ x mod 2 ^ 32)).

Definition blank : Element :=
  {| hidden := false; disabled := false; textContent := EmptyString;
     value := EmptyString; src := EmptyString; classList := [];
     ariaLabel := EmptyString |}.

Definition sampleMarkup (id : ElemId) : Element :=
  match id with
  | errorMsgElement | photo | recordedVideo | saveButton => set_hidden true blank
  | zoomSlider => set_value "1" blank
  | zoomValueDisplay => set_textContent "1.0" blank
  | recordButtonSpan => set_textContent "録画" blank
  | _ => blank
  end.

#[export] Instance sampleHost : Host :=
  {| parseFloat := fun str => parseDecimal str 0%float None false;
     toFixed := toFixedSample;
     toUnsignedLong := toUnsignedLongSample;
     locationHref := "https://camera.example/";
     nullDerefMessage := "Cannot read properties of null";
     markup := sampleMarkup;
     markupHasContext := true;
     markupHasSelectorContainer := true |}.

(** Two cameras and a microphone, a stream of the first camera, a chunk. *)
Definition frontCamera : MediaDeviceInfo :=
  {| deviceId := "cam-front"; kind := videoinput; label := "Front" |}.
Definition backCamera : MediaDeviceInfo :=
  {| deviceId := "cam-back"; kind := videoinput; label := "Back" |}.
Definition microphone : MediaDeviceInfo :=
  {| deviceId := "mic"; kind := audioinput; label := "Microphone" |}.

Definition frontStream : MediaStream :=
  {| getTracks :=
       [ {| trackId := 1; trackKind := VideoTrack; settingsDeviceId := Some "cam-front" |};
         {| trackId := 2; trackKind := AudioTrack; settingsDeviceId := Some "mic" |} ] |}.

Definition canvasCapture : MediaStream :=
  {| getTracks :=
       [ {| trackId := 3; trackKind := VideoTrack; settingsDeviceId := None |} ] |}.

Definition chunk : Blob :=
  {| blobBytes := [x1a; x45; xdf; xa3]; blobType := "video/webm" |}.

(** The page is loaded, two cameras are found, the first one is opened and
    starts playing. *)
Definition opened : list Event :=
  [ EvSettle 0 (GotDevices [frontCamera; microphone; backCamera]);
    EvSettle 0 (GotStream frontStream);
    EvPlaying 1280 720;
    EvSettle 0 Played ].

(** The zoom slider is moved to 2.5. *)
Definition zoomed : list Event := opened ++ [EvZoomInput "2.5"].

(** A photo is taken, then a recording is started. *)
Definition photoThenRecording : list Event :=
  opened ++ [ EvCaptureClick true "image/jpeg;base64,AAAA";
              EvRecordClick canvasCapture Starts ].

(** A recording is started and has not produced a chunk yet. *)
Definition recordingNothingYet : list Event :=
  opened ++ [ EvRecordClick canvasCapture Starts ].

(** A recording is started and has produced one chunk. *)
Definition recordingOneChunk : list Event :=
  recordingNothingYet ++ [ EvDataAvailable chunk ].

(** A first clip of one chunk is recorded and finalized. *)
Definition firstClip : list Event :=
  recordingOneChunk ++ [ EvRecordClick canvasCapture Starts; EvRecorderStop "clip-1" ].

(** A photo is taken, then a clip is recorded and finalized. *)
Definition photoThenVideo : list Event :=
  opened ++ [ EvCaptureClick true "image/jpeg;base64,AAAA";
              EvRecordClick canvasCapture Starts;
              EvDataAvailable chunk;
              EvRecordClick canvasCapture Starts;
              EvRecorderStop "clip-1" ].

(** The platform refuses the codec. *)
Definition codecRefused : Event :=
  EvRecordClick canvasCapture (ConstructorThrows (ErrorObject "NotSupportedError")).

(** The page after each of these histories. *)
Definition atBoot : State := st boot.
Definition afterZoom : State := st (exec zoomed boot).
Definition afterZoomAndFrame : State := st (exec (zoomed ++ [EvAnimationFrame]) boot).
Definition whileRecordingWithPhoto : Config := exec photoThenRecording boot.
Definition whileRecordingNothingYet : State := st (exec recordingNothingYet boot).
Definition whileRecordingOneChunk : Config := exec recordingOneChunk boot.
Definition afterFirstClip : Config := exec firstClip boot.
Definition afterPhotoThenVideo : Config := exec photoThenVideo boot.

(** Only a microphone is found. *)
Definition noCameraFound : Config := exec [EvSettle 0 (GotDevices [microphone])] boot.

(** Two cameras are found and access to them is denied. *)
Definition accessDenied : Config :=
  exec [ EvSettle 0 (GotDevices [frontCamera; microphone; backCamera]);
         EvSettle 0 (Failed (ErrorObject "Permission denied")) ] boot.

(** The first camera is open and playing. *)
Definition whileOpened : Config := exec opened boot.

(** A stream of the second camera. *)
Definition backStream : MediaStream :=
  {| getTracks :=
       [ {| trackId := 4; trackKind := VideoTrack; settingsDeviceId := Some "cam-back" |};
         {| trackId := 5; trackKind := AudioTrack; settingsDeviceId := Some "mic" |} ] |}.

(** Two cameras as they are listed before access is granted: no labels. *)
Definition unlabelledFront : MediaDeviceInfo :=
  {| deviceId := "cam-front"; kind := videoinput; label := EmptyString |}.
Definition unlabelledBack : MediaDeviceInfo :=
  {| deviceId := "cam-back"; kind := videoinput; label := EmptyString |}.

(** The page once two cameras without labels have been listed. *)
Definition unlabelledListed : State :=
  st (exec [EvSettle 0 (GotDevices [unlabelledFront; unlabelledBack])] boot).

(** The first video track of [frontStream]. *)
Definition frontVideoTrack : MediaStreamTrack :=
  {| trackId := 1; trackKind := VideoTrack; settingsDeviceId := Some "cam-front" |}.

(** The recorder that [recordingNothingYet] creates. *)
Definition sampleRecorder : MediaRecorder :=
  {| recStream :=
       {| getTracks :=
            [ {| trackId := 3; trackKind := VideoTrack; settingsDeviceId := None |};
              {| trackId := 2; trackKind := AudioTrack; settingsDeviceId := Some "mic" |} ] |};
     recMimeType := mimeType;
     recPhase := recording |}.

End Sample.

(** ** Vocabulary of the properties *)

(** A source rectangle: x, y, width, height. *)
Definition Rect : Type := float * float * float * float.

Definition Surface_eqb (a b : Surface) : bool :=
  match a, b with
  | DisplayCanvas, DisplayCanvas | TempCanvas, TempCanvas => true
  | _, _ => false
  end.

(** The source rectangle of the latest [drawImage] onto a surface. *)
Fixpoint lastCrop (target : Surface) (l : list Effect) : option Rect :=
  match l with
  | [] => None
  | DrawImage t sx sy sw sh _ _ _ _ :: rest =>
      if Surface_eqb t target then Some (sx, sy, sw, sh) else lastCrop target rest
  | _ :: rest => lastCrop target rest
  end.

(** The crop rectangle in the words of the spec: the source size is the
    frame size divided by the zoom, the offset centres it in the frame. *)
Definition cropRectangle (frameW frameH zoom : float) : Rect :=
  let sourceW := (frameW / zoom)%float in
  let sourceH := (frameH / zoom)%float in
  (((frameW - sourceW) / 2)%float, ((frameH - sourceH) / 2)%float, sourceW, sourceH).

(** The kind of the artifact produced last: a still is produced by
    [toDataURL], a clip by [createObjectURL] on the finalized blob. *)
Fixpoint latestArtifact (l : list Effect) : option MediaKind :=
  match l with
  | [] => None
  | ToDataURL _ _ _ :: _ => Some Photo
  | CreateObjectURL _ _ :: _ => Some Video
  | _ :: rest => latestArtifact rest
  end.

(** The files offered for download by the clicks recorded in a log. *)
Fixpoint downloads (l : list Effect) : list (string * string) :=
  match l with
  | [] => []
  | LinkClick href name :: rest => (href, name) :: downloads rest
  | _ :: rest => downloads rest
  end.

(** Every synchronous stretch of an asynchronous function, on whatever
    state it is resumed, relates the state it starts from and the state it
    leaves by [R]. *)
Fixpoint segments (R : State -> State -> Prop) (from : State) (m : Async) : Prop :=
  match m with
  | Done s => R from s
  | Await s _ k => R from s /\ forall outcome s', segments R s' (k outcome s')
  end.

(** What the asynchronous functions of the script leave alone: the
    recording variables, the artifact, and which elements are disabled or
    show which source. *)
Definition asyncFrame (s s' : State) : Prop :=
  isRecording s' = isRecording s /\
  mediaRecorder s' = mediaRecorder s /\
  recordedChunks s' = recordedChunks s /\
  mediaType s' = mediaType s /\
  latestArtifact (effects s') = latestArtifact (effects s) /\
  (forall id, disabled (dom s' id) = disabled (dom s id)) /\
  (forall id, src (dom s' id) = src (dom s id)).

Definition waitsInFrame (w : Suspended) : Prop :=
  match w with
  | Suspend _ k => forall outcome s', segments asyncFrame s' (k outcome s')
  end.

Section Invariants.
Context {host : Host}.

(** While recording, the controls that [updateRecordingUI] locks are
    disabled and the zoom slider is enabled. *)
Definition recordingLocksControls (s : State) : Prop :=
  isRecording s = true ->
  disabled (dom s captureButton) = true /\
  disabled (dom s switchCameraButton) = true /\
  disabled (dom s cameraSelect) = true /\
  disabled (dom s zoomSlider) = false.

(** The script never writes [disabled] on the record and save buttons. *)
Definition untouchedButtons (s : State) : Prop :=
  disabled (dom s recordButton) = disabled (markup recordButton) /\
  disabled (dom s saveButton) = disabled (markup saveButton).

Definition chunksNonEmpty (s : State) : Prop :=
  Forall (fun chunk => 0 < size chunk) (recordedChunks s).

(** [mediaType] names the artifact produced last, and that artifact's
    element shows a URL made for it. *)
Definition artifactTracked (s : State) : Prop :=
  mediaType s = latestArtifact (effects s) /\
  (mediaType s = Some Photo -> exists encoded, src (dom s photo) = dataURL encoded) /\
  (mediaType s = Some Video -> exists id, src (dom s recordedVideo) = blobURL id).

(** The zoom is back at 1.0: the variable, the slider and the display. *)
Definition zoomReset (s : State) : Prop :=
  currentZoom s = 1%float /\
  value (dom s zoomSlider) = "1" /\
  textContent (dom s zoomValueDisplay) = toFixed 1 1.

(** An asynchronous function whose first request to the platform is the
    acquisition of a stream, issued when the zoom is reset and no stream is
    held, and which stores the stream it is given with the zoom still reset
    (when it is resumed on the state it left). *)
Definition acquiresAfterZoomReset (m : Async) : Prop :=
  exists s1 constraints k,
    m = Await s1 (GetUserMedia constraints) k /\
    zoomReset s1 /\
    currentStream s1 = None /\
    forall stream, exists s2 k2,
      k (Fulfilled stream) s1 = Await s2 VideoPlay k2 /\
      currentStream s2 = Some stream /\
      zoomReset s2.

(** The message of the [catch] clause of [initCamera]. *)
Definition acquisitionFailedMessage (err : Thrown) : string :=
  withErrorDetail
    "カメラまたはマイクにアクセスできませんでした。デバイスが接続されており、アクセスが許可されていることを確認してください。"
    err.

(** Every track of the stream held in [before] has been stopped by the
    time of [after]. *)
Definition released (before after : State) : Prop :=
  forall stream track,
    currentStream before = Some stream -> In track (getTracks stream) ->
    In (TrackStop track) (effects after).

Definition good (s : State) : Prop :=
  recordingLocksControls s /\ untouchedButtons s /\ chunksNonEmpty s /\ artifactTracked s.

Definition goodConfig (c : Config) : Prop :=
  good (st c) /\ Forall waitsInFrame (pending c).

End Invariants.

(** ** Vocabulary of further properties *)

(** The [option] that the [forEach] of lines 69-74 makes for the device at
    [index]: its value is the device id, its text the label, or the word for
    camera and the one-based position when the label is empty. *)
Definition optionFor (index : nat) (device : MediaDeviceInfo) : string * string :=
  (deviceId device,
   if truthy (label device) then label device else "カメラ " ++ decimal (index + 1)).

Fixpoint optionsFrom (index : nat) (devices : list MediaDeviceInfo)
    : list (string * string) :=
  match devices with
  | [] => []
  | device :: rest => optionFor index device :: optionsFrom (S index) rest
  end.

(** The message of the latest call of [showError] in a log: [showError]
    is the one place that calls [console.error] with the message alone. *)
Fixpoint latestShown (l : list Effect) : option string :=
  match l with
  | [] => None
  | ConsoleError msg None :: _ => Some msg
  | _ :: rest => latestShown rest
  end.

(** An asynchronous function on its own: every request is answered in
    turn from [answers] and the function is resumed on the state it left.
    The result is the final state, when the answers fit the requests and
    none is missing or left over. *)
Fixpoint settle (m : Async) (answers : list Answer) {struct m} : option State :=
  match m, answers with
  | Done s, [] => Some s
  | Await s req k, a :: rest =>
      match deliver req a with
      | Some outcome => settle (k outcome s) rest
      | None => None
      end
  | _, _ => None
  end.

(** Every synchronous stretch of an asynchronous function ends in a state
    with [P], provided it is resumed on states with [P]. *)
Fixpoint preserves (P : State -> Prop) (m : Async) : Prop :=
  match m with
  | Done s => P s
  | Await s _ k => P s /\ forall outcome s', P s' -> preserves P (k outcome s')
  end.

(** What rebuilding the device list leaves alone: everything but the list,
    the options, and the three elements of the camera selector. *)
Definition listingFrame (s s' : State) : Prop :=
  currentStream s' = currentStream s /\
  currentZoom s' = currentZoom s /\
  hasStartedDrawing s' = hasStartedDrawing s /\
  mediaRecorder s' = mediaRecorder s /\
  recordedChunks s' = recordedChunks s /\
  isRecording s' = isRecording s /\
  mediaType s' = mediaType s /\
  currentDeviceIndex s' = currentDeviceIndex s /\
  video s' = video s /\
  canvas s' = canvas s /\
  pendingFrames s' = pendingFrames s /\
  effects s' = effects s /\
  (forall id, id <> cameraSelect -> id <> switchCameraButton -> id <> selectorContainer ->
              dom s' id = dom s id).

Section FurtherInvariants.
Context {host : Host}.

(** The render loop is started once: no frame callback is queued before
    that and exactly one ever after. *)
Definition loopRunsOnce (s : State) : Prop :=
  pendingFrames s = if hasStartedDrawing s then 1 else 0.

(** While recording, a recorder in its recording phase is held and the
    record button is in its stop guise. *)
Definition recorderFollowsFlag (s : State) : Prop :=
  isRecording s = true ->
  (exists r, mediaRecorder s = Some r /\ recPhase r = recording) /\
  textContent (dom s recordButtonSpan) = "停止" /\
  ariaLabel (dom s recordButton) = "録画を停止する" /\
  In "recording" (classList (dom s recordButton)).

(** The drop-down lists the known video devices, in order. *)
Definition dropdownListsDevices (s : State) : Prop :=
  cameraOptions s = optionsFrom 0 (videoDevices s).

(** The stream held is the one the video element plays. *)
Definition previewShowsStream (s : State) : Prop :=
  forall stream, currentStream s = Some stream -> srcObject (video s) = Some stream.

(** The message region is visible and shows the error reported last. *)
Definition errorRegionShowsLatest (s : State) : Prop :=
  forall msg, latestShown (effects s) = Some msg ->
    hidden (dom s errorMsgElement) = false /\
    textContent (dom s errorMsgElement) = msg.

(** The zoom display shows the zoom in effect; until the zoom is first
    written it is the text of the markup, with the zoom at its initial 1.0. *)
Definition zoomDisplayed (s : State) : Prop :=
  textContent (dom s zoomValueDisplay) = toFixed (currentZoom s) 1 \/
  (currentZoom s = 1%float /\ dom s zoomValueDisplay = markup zoomValueDisplay).

(** The result area shows the current artifact and only it, and the save
    button is visible with the matching caption. *)
Definition resultShown (s : State) : Prop :=
  match mediaType s with
  | Some Photo =>
      hidden (dom s photo) = false /\ hidden (dom s recordedVideo) = true /\
      hidden (dom s saveButton) = false /\
      textContent (dom s saveButtonSpan) = "写真保存"
  | Some Video =>
      hidden (dom s recordedVideo) = false /\ hidden (dom s photo) = true /\
      hidden (dom s saveButton) = false /\
      textContent (dom s saveButtonSpan) = "動画保存"
  | None => True
  end.

(** The part of the invariant that rebuilding the device list cannot touch. *)
Definition steady (s : State) : Prop :=
  loopRunsOnce s /\ recorderFollowsFlag s /\ previewShowsStream s /\
  errorRegionShowsLatest s /\ zoomDisplayed s /\ resultShown s.

Definition sound (s : State) : Prop :=
  steady s /\ dropdownListsDevices s.

Definition waitsSoundly (w : Suspended) : Prop :=
  match w with
  | Suspend _ k => forall outcome s', sound s' -> preserves sound (k outcome s')
  end.

Definition soundConfig (c : Config) : Prop :=
  sound (st c) /\ Forall waitsSoundly (pending c).

End FurtherInvariants.

(** * Properties *)

(** ** Reading state through its updates *)

Lemma ElemId_eqb_eq : forall a b, ElemId_eqb a b = true <-> a = b.
Proof.
  intros a b; split.
  - destruct a, b; simpl; intro H; try reflexivity; discriminate H.
  - intros ->; destruct b; reflexivity.
Qed.

Lemma ElemId_eqb_refl : forall a, ElemId_eqb a a = true.
Proof. intro a; apply ElemId_eqb_eq; reflexivity. Qed.

Lemma ElemId_eqb_neq : forall a b, a <> b -> ElemId_eqb a b = false.
Proof.
  intros a b H; destruct (ElemId_eqb a b) eqn:E; [|reflexivity].
  apply ElemId_eqb_eq in E; contradiction.
Qed.

Lemma dom_setEl_same : forall id f s, dom (setEl id f s) id = f (dom s id).
Proof. intros; simpl; rewrite ElemId_eqb_refl; reflexivity. Qed.

Lemma dom_setEl_other : forall id f s j, j <> id -> dom (setEl id f s) j = dom s j.
Proof. intros; simpl; rewrite ElemId_eqb_neq by assumption; reflexivity. Qed.

Section HandlerProperties.
Context {host : Host}.

(** ** Crop rectangle *)

Lemma drawFrame_crop : forall s,
  ctx s = true -> paused (video s) = false -> ended (video s) = false ->
  lastCrop DisplayCanvas (effects (drawFrame s))
  = Some (cropRectangle (videoWidth (video s)) (videoHeight (video s)) (currentZoom s)).
Proof.
  intros s Hctx Hp He. unfold drawFrame. rewrite Hctx, Hp, He. reflexivity.
Qed.

Lemma takePicture_crop : forall encoded s,
  ctx s = true ->
  lastCrop TempCanvas (effects (takePicture true encoded s))
  = Some (cropRectangle (videoWidth (video s)) (videoHeight (video s)) (currentZoom s)).
Proof.
  intros encoded s Hctx. unfold takePicture. rewrite Hctx. reflexivity.
Qed.

(** C1.  For every frame width, frame height and zoom factor (in the
    slider's range or not), the source rectangle that the render loop
    ([drawFrame]) passes to [drawImage] and the one that still capture
    ([takePicture]) passes to [drawImage] are the same whenever the two run
    on states that agree on those three numbers; both are the rectangle the
    spec describes (size divided by zoom, centred). *)
Theorem preview_and_capture_crop_agree :
  forall (frameW frameH z : float) (preview capture : State) (encoded : string),
    videoWidth (video preview) = frameW -> videoHeight (video preview) = frameH ->
    currentZoom preview = z ->
    videoWidth (video capture) = frameW -> videoHeight (video capture) = frameH ->
    currentZoom capture = z ->
    ctx preview = true -> paused (video preview) = false -> ended (video preview) = false ->
    ctx capture = true ->
    lastCrop DisplayCanvas (effects (drawFrame preview))
    = lastCrop TempCanvas (effects (takePicture true encoded capture))
    /\ lastCrop DisplayCanvas (effects (drawFrame preview))
       = Some (cropRectangle frameW frameH z).
Proof.
  intros frameW frameH z preview capture encoded W1 H1 Z1 W2 H2 Z2 C1 P1 E1 C2.
  rewrite (drawFrame_crop preview C1 P1 E1), (takePicture_crop encoded capture C2).
  rewrite W1, H1, Z1, W2, H2, Z2. split; reflexivity.
Qed.

(** ** Zoom slider *)

(** C9.  [handleZoomChange] writes the zoom factor and the text of the zoom
    display and nothing else: the active stream, the device list and index,
    the recording flag, recorder and chunk buffer, the artifact kind, every
    other element of the page, the video, the canvas and the platform log
    are as before. *)
Theorem handleZoomChange_changes_only_zoom : forall s,
  currentZoom (handleZoomChange s) = parseFloat (value (dom s zoomSlider)) /\
  dom (handleZoomChange s) zoomValueDisplay
  = set_textContent (toFixed (parseFloat (value (dom s zoomSlider))) 1)
      (dom s zoomValueDisplay) /\
  (forall id, id <> zoomValueDisplay -> dom (handleZoomChange s) id = dom s id) /\
  currentStream (handleZoomChange s) = currentStream s /\
  videoDevices (handleZoomChange s) = videoDevices s /\
  currentDeviceIndex (handleZoomChange s) = currentDeviceIndex s /\
  isRecording (handleZoomChange s) = isRecording s /\
  mediaRecorder (handleZoomChange s) = mediaRecorder s /\
  recordedChunks (handleZoomChange s) = recordedChunks s /\
  mediaType (handleZoomChange s) = mediaType s /\
  hasStartedDrawing (handleZoomChange s) = hasStartedDrawing s /\
  cameraOptions (handleZoomChange s) = cameraOptions s /\
  video (handleZoomChange s) = video s /\
  canvas (handleZoomChange s) = canvas s /\
  pendingFrames (handleZoomChange s) = pendingFrames s /\
  effects (handleZoomChange s) = effects s.
Proof.
  intro s. unfold handleZoomChange. cbv zeta.
  split; [reflexivity|].
  split; [reflexivity|].
  split; [intros id Hid; simpl; rewrite (ElemId_eqb_neq _ _ Hid); reflexivity|].
  repeat split.
Qed.

(** ** Recording *)

(** C3.  Invoked with no active stream or with no draw context,
    [startRecording] does what [showError] does and nothing more: the
    message is shown and logged, [isRecording] keeps its value (false when
    idle), no recorder is stored and the chunk buffer is untouched. *)
Theorem startRecording_needs_stream_and_context :
  forall canvasStream verdict s,
    currentStream s = None \/ ctx s = false ->
    startRecording canvasStream verdict s = showError cannotStartMessage s /\
    isRecording (startRecording canvasStream verdict s) = isRecording s /\
    mediaRecorder (startRecording canvasStream verdict s) = mediaRecorder s /\
    recordedChunks (startRecording canvasStream verdict s) = recordedChunks s /\
    hidden (dom (startRecording canvasStream verdict s) errorMsgElement) = false /\
    textContent (dom (startRecording canvasStream verdict s) errorMsgElement)
    = cannotStartMessage /\
    effects (startRecording canvasStream verdict s)
    = ConsoleError cannotStartMessage None :: effects s.
Proof.
  intros canvasStream verdict s H.
  assert (E : startRecording canvasStream verdict s = showError cannotStartMessage s).
  { unfold startRecording.
    destruct H as [H|H]; rewrite H; [reflexivity|].
    destruct (currentStream s); reflexivity. }
  rewrite E. repeat split.
Qed.

(** C4, as amended.  When [new MediaRecorder] throws, [startRecording] logs
    the exception and shows the error; [isRecording] and [mediaRecorder]
    keep their values, so the state stays Idle, and the chunk buffer is
    empty afterwards (it is reset before the constructor is called).
    Everything but the buffer, the message region and the log is as before. *)
Theorem rejected_codec_stays_idle_with_empty_buffer :
  forall canvasStream e s stream,
    currentStream s = Some stream -> ctx s = true ->
    startRecording canvasStream (ConstructorThrows e) s
    = showError unsupportedMessage
        (log (ConsoleError "Exception while creating MediaRecorder:" (Some e))
           (set_recordedChunks [] s)) /\
    isRecording (startRecording canvasStream (ConstructorThrows e) s) = isRecording s /\
    mediaRecorder (startRecording canvasStream (ConstructorThrows e) s) = mediaRecorder s /\
    recordedChunks (startRecording canvasStream (ConstructorThrows e) s) = [] /\
    hidden (dom (startRecording canvasStream (ConstructorThrows e) s) errorMsgElement)
    = false /\
    textContent (dom (startRecording canvasStream (ConstructorThrows e) s) errorMsgElement)
    = unsupportedMessage.
Proof.
  intros canvasStream e s stream Hs Hc.
  assert (E : startRecording canvasStream (ConstructorThrows e) s
              = showError unsupportedMessage
                  (log (ConsoleError "Exception while creating MediaRecorder:" (Some e))
                     (set_recordedChunks [] s))).
  { unfold startRecording. rewrite Hs, Hc. reflexivity. }
  rewrite E. repeat split.
Qed.

(** C8.  Stopping an active recording whose chunk buffer is empty: the
    record click runs [stopRecording], which returns to Idle and leaves the
    recorder finalizing; the recorder's [stop] handler then builds a clip
    from no chunks (zero bytes, type video/mp4), obtains a URL for it, shows
    it in the player and makes it the current artifact. *)
Theorem stop_with_empty_buffer_publishes_empty_clip :
  forall canvasStream verdict s r id,
    isRecording s = true -> mediaRecorder s = Some r -> recPhase r = recording ->
    recordedChunks s = [] ->
    toggleRecording canvasStream verdict s = stopRecording s /\
    isRecording (stopRecording s) = false /\
    option_map recPhase (mediaRecorder (stopRecording s)) = Some finalizing /\
    recordedChunks (stopRecording s) = [] /\
    effects (onstop id (stopRecording s))
    = CreateObjectURL {| blobBytes := []; blobType := "video/mp4" |} (blobURL id)
        :: RecorderStopped r :: effects s /\
    mediaType (onstop id (stopRecording s)) = Some Video /\
    src (dom (onstop id (stopRecording s)) recordedVideo) = blobURL id /\
    hidden (dom (onstop id (stopRecording s)) recordedVideo) = false /\
    hidden (dom (onstop id (stopRecording s)) saveButton) = false /\
    isRecording (onstop id (stopRecording s)) = false.
Proof.
  intros canvasStream verdict s r id Hrec Hr Hphase Hchunks.
  split.
  { unfold toggleRecording. rewrite Hrec. reflexivity. }
  unfold stopRecording, onstop, recorderStop, updateRecordingUI. rewrite Hr, Hphase.
  simpl. rewrite Hchunks. repeat split.
Qed.

End HandlerProperties.

(** ** Acquiring a stream *)

Lemma stopTracks_eq : forall tracks s,
  fold_left (fun s track => log (TrackStop track) s) tracks s
  = set_effects (rev (map TrackStop tracks) ++ effects s)%list s.
Proof.
  induction tracks as [|t tracks IH]; intro s; simpl.
  - destruct s; reflexivity.
  - rewrite IH. simpl. rewrite <- app_assoc. reflexivity.
Qed.

Section AcquisitionProperties.
Context {host : Host}.

Lemma stopCurrentStream_eq : forall s,
  stopCurrentStream s
  = match currentStream s with
    | Some stream =>
        set_currentStream None
          (set_effects (rev (map TrackStop (getTracks stream)) ++ effects s)%list s)
    | None => s
    end.
Proof.
  intro s. unfold stopCurrentStream. destruct (currentStream s); [|reflexivity].
  rewrite stopTracks_eq. reflexivity.
Qed.

Lemma stopCurrentStream_none : forall s, currentStream (stopCurrentStream s) = None.
Proof.
  intro s. rewrite stopCurrentStream_eq.
  destruct (currentStream s) eqn:E; [reflexivity | exact E].
Qed.

Lemma stopCurrentStream_released : forall s, released s (stopCurrentStream s).
Proof.
  intros s stream track Hs Hin. rewrite stopCurrentStream_eq, Hs. simpl.
  apply in_or_app; left. rewrite <- in_rev. apply in_map. exact Hin.
Qed.

Lemma stopCurrentStream_zoomReset : forall s, zoomReset s -> zoomReset (stopCurrentStream s).
Proof.
  intros s H. rewrite stopCurrentStream_eq. destruct (currentStream s); exact H.
Qed.

Lemma initCamera_acquires : forall deviceId' s,
  zoomReset s -> acquiresAfterZoomReset (initCamera deviceId' s).
Proof.
  intros deviceId' s Hz. unfold acquiresAfterZoomReset, initCamera. cbv zeta.
  eexists; eexists; eexists. split; [reflexivity|].
  split; [apply stopCurrentStream_zoomReset; exact Hz|].
  split; [apply stopCurrentStream_none|].
  intro stream. eexists; eexists. split; [reflexivity|].
  split; [reflexivity|].
  apply (stopCurrentStream_zoomReset s Hz).
Qed.

(** C2.  [switchCamera], when there is more than one device, and
    [handleCameraSelectChange], for whatever device is selected, set the
    zoom to 1.0 (variable, slider and display) and only then enter
    [initCamera]: the request for the new stream is issued on a state whose
    zoom is 1.0 and which holds no stream, and the stream obtained is stored
    with the zoom at 1.0.  With at most one device [switchCamera] does
    nothing. *)
Theorem device_switch_resets_zoom_before_acquiring : forall s,
  (if (1 <? length (videoDevices s))%nat
   then acquiresAfterZoomReset (switchCamera s)
   else switchCamera s = Done s) /\
  acquiresAfterZoomReset (handleCameraSelectChange s).
Proof.
  intro s. split.
  - unfold switchCamera. destruct (1 <? length (videoDevices s))%nat eqn:Hlen; [|reflexivity].
    cbv zeta. simpl videoDevices. simpl currentDeviceIndex.
    destruct (nth_error (videoDevices s)
                ((currentDeviceIndex s + 1) mod length (videoDevices s))) as [device|] eqn:Hnth.
    + apply initCamera_acquires. unfold zoomReset. repeat split.
    + exfalso. apply nth_error_None in Hnth. apply Nat.ltb_lt in Hlen.
      pose proof (Nat.mod_upper_bound (currentDeviceIndex s + 1) (length (videoDevices s))).
      lia.
  - unfold handleCameraSelectChange. cbv zeta.
    apply initCamera_acquires. unfold zoomReset. repeat split.
Qed.

(** Beside the claims: the same [catch] clause also receives a rejection
    of [video.play()], which comes after the stream has been stored; the
    message is then shown while [currentStream] holds the new stream. *)
Lemma rejected_playback_keeps_stream : forall deviceId' s stream err,
  exists s1 constraints k s2 k2 s3,
    initCamera deviceId' s = Await s1 (GetUserMedia constraints) k /\
    k (Fulfilled stream) s1 = Await s2 VideoPlay k2 /\
    k2 (Rejected err) s2 = Done s3 /\
    currentStream s3 = Some stream /\
    textContent (dom s3 errorMsgElement) = acquisitionFailedMessage err.
Proof.
  intros deviceId' s stream err. unfold initCamera. cbv zeta.
  do 6 eexists. split; [reflexivity|].
  split; [reflexivity|].
  split; [reflexivity|].
  split; reflexivity.
Qed.

(** C7.  [initCamera] first releases the stream it holds (every track is
    stopped, [currentStream] is null) and then asks for a new one.  When
    that request is rejected, whatever the reason (permission denied, device
    busy, no device), the function ends in its [catch] clause: the error
    message is shown and logged and nothing else changes, so no stream is
    active and the previous one stays released. *)
Theorem failed_acquisition_leaves_no_stream : forall deviceId' s,
  exists s1 constraints k,
    initCamera deviceId' s = Await s1 (GetUserMedia constraints) k /\
    currentStream s1 = None /\
    released s s1 /\
    forall err,
      (forall s', k (Rejected err) s' = Done (showError (acquisitionFailedMessage err) s')) /\
      exists s2,
        k (Rejected err) s1 = Done s2 /\
        currentStream s2 = None /\
        released s s2 /\
        hidden (dom s2 errorMsgElement) = false /\
        textContent (dom s2 errorMsgElement) = acquisitionFailedMessage err /\
        effects s2 = ConsoleError (acquisitionFailedMessage err) None :: effects s1.
Proof.
  intros deviceId' s. unfold initCamera. cbv zeta.
  eexists; eexists; eexists. split; [reflexivity|].
  split; [apply stopCurrentStream_none|].
  split; [apply stopCurrentStream_released|].
  intro err. split; [reflexivity|].
  eexists. split; [reflexivity|].
  split; [apply stopCurrentStream_none|].
  split.
  { intros stream track Hs Hin. simpl. right.
    apply (stopCurrentStream_released s stream track Hs Hin). }
  repeat split.
Qed.

End AcquisitionProperties.

(** ** What asynchronous code leaves alone *)

Lemma frame_refl : forall s, asyncFrame s s.
Proof. intro s; unfold asyncFrame; repeat split. Qed.

Lemma frame_trans : forall s1 s2 s3,
  asyncFrame s1 s2 -> asyncFrame s2 s3 -> asyncFrame s1 s3.
Proof.
  unfold asyncFrame.
  intros s1 s2 s3 (A1 & A2 & A3 & A4 & A5 & A6 & A7) (B1 & B2 & B3 & B4 & B5 & B6 & B7).
  repeat split; congruence.
Qed.

(** One more update that is in the frame. *)
Ltac frame_atom :=
  let H := fresh "H" in
  intros ? ? H; eapply frame_trans; [exact H|];
  unfold asyncFrame; simpl; repeat split; intros;
  repeat match goal with
         | |- context [ElemId_eqb ?a ?b] => destruct (ElemId_eqb a b)
         end;
  reflexivity.

Lemma frame_set_videoDevices : forall s0 s x,
  asyncFrame s0 s -> asyncFrame s0 (set_videoDevices x s).
Proof. intros s0 s x; revert s0 s; frame_atom. Qed.

Lemma frame_set_cameraOptions : forall s0 s x,
  asyncFrame s0 s -> asyncFrame s0 (set_cameraOptions x s).
Proof. intros s0 s x; revert s0 s; frame_atom. Qed.

Lemma frame_set_currentStream : forall s0 s x,
  asyncFrame s0 s -> asyncFrame s0 (set_currentStream x s).
Proof. intros s0 s x; revert s0 s; frame_atom. Qed.

Lemma frame_set_currentDeviceIndex : forall s0 s x,
  asyncFrame s0 s -> asyncFrame s0 (set_currentDeviceIndex x s).
Proof. intros s0 s x; revert s0 s; frame_atom. Qed.

Lemma frame_set_currentZoom : forall s0 s x,
  asyncFrame s0 s -> asyncFrame s0 (set_currentZoom x s).
Proof. intros s0 s x; revert s0 s; frame_atom. Qed.

Lemma frame_set_video : forall s0 s x,
  asyncFrame s0 s -> asyncFrame s0 (set_video x s).
Proof. intros s0 s x; revert s0 s; frame_atom. Qed.

Lemma frame_set_canvas : forall s0 s x,
  asyncFrame s0 s -> asyncFrame s0 (set_canvas x s).
Proof. intros s0 s x; revert s0 s; frame_atom. Qed.

Lemma frame_set_pendingFrames : forall s0 s x,
  asyncFrame s0 s -> asyncFrame s0 (set_pendingFrames x s).
Proof. intros s0 s x; revert s0 s; frame_atom. Qed.

Lemma frame_set_hasStartedDrawing : forall s0 s x,
  asyncFrame s0 s -> asyncFrame s0 (set_hasStartedDrawing x s).
Proof. intros s0 s x; revert s0 s; frame_atom. Qed.

Lemma frame_requestAnimationFrame : forall s0 s,
  asyncFrame s0 s -> asyncFrame s0 (requestAnimationFrame s).
Proof. frame_atom. Qed.

Lemma frame_set_hidden : forall id b s0 s,
  asyncFrame s0 s -> asyncFrame s0 (setEl id (set_hidden b) s).
Proof. intros id b; frame_atom. Qed.

Lemma frame_set_value : forall id v s0 s,
  asyncFrame s0 s -> asyncFrame s0 (setEl id (set_value v) s).
Proof. intros id v; frame_atom. Qed.

Lemma frame_set_textContent : forall id t s0 s,
  asyncFrame s0 s -> asyncFrame s0 (setEl id (set_textContent t) s).
Proof. intros id t; frame_atom. Qed.

Lemma frame_log_ConsoleError : forall msg detail s0 s,
  asyncFrame s0 s -> asyncFrame s0 (log (ConsoleError msg detail) s).
Proof. intros msg detail; frame_atom. Qed.

Lemma frame_log_LinkClick : forall href name s0 s,
  asyncFrame s0 s -> asyncFrame s0 (log (LinkClick href name) s).
Proof. intros href name; frame_atom. Qed.

Lemma frame_log_ClearRect : forall t x y w h s0 s,
  asyncFrame s0 s -> asyncFrame s0 (log (ClearRect t x y w h) s).
Proof. intros t x y w h; frame_atom. Qed.

Lemma frame_log_DrawImage : forall t sx sy sw sh dx dy dw dh s0 s,
  asyncFrame s0 s -> asyncFrame s0 (log (DrawImage t sx sy sw sh dx dy dw dh) s).
Proof. intros t sx sy sw sh dx dy dw dh; frame_atom. Qed.

Lemma latestArtifact_stops : forall tracks l,
  latestArtifact (rev (map TrackStop tracks) ++ l)%list = latestArtifact l.
Proof.
  induction tracks as [|t tracks IH]; intro l; simpl; [reflexivity|].
  rewrite <- app_assoc. rewrite IH. reflexivity.
Qed.

Create HintDb frame.
#[export] Hint Resolve frame_refl frame_set_videoDevices frame_set_cameraOptions
  frame_set_currentStream frame_set_currentDeviceIndex frame_set_currentZoom
  frame_set_video frame_set_canvas frame_set_pendingFrames
  frame_set_hasStartedDrawing frame_requestAnimationFrame frame_set_hidden
  frame_set_value frame_set_textContent frame_log_ConsoleError
  frame_log_LinkClick frame_log_ClearRect frame_log_DrawImage : frame.

Section FrameOfTheScript.
Context {host : Host}.

Lemma frame_showError : forall msg s0 s,
  asyncFrame s0 s -> asyncFrame s0 (showError msg s).
Proof. intros; unfold showError; cbv zeta; auto with frame. Qed.

Lemma frame_stopCurrentStream : forall s0 s,
  asyncFrame s0 s -> asyncFrame s0 (stopCurrentStream s).
Proof.
  intros s0 s H. rewrite stopCurrentStream_eq.
  destruct (currentStream s); [|exact H].
  apply frame_set_currentStream. eapply frame_trans; [exact H|].
  unfold asyncFrame; simpl; repeat split. apply latestArtifact_stops.
Qed.

Lemma frame_clearOptions : forall s0 s,
  asyncFrame s0 s -> asyncFrame s0 (clearOptions s).
Proof. intros; unfold clearOptions; cbv zeta; auto with frame. Qed.

Lemma frame_appendOption : forall v t s0 s,
  asyncFrame s0 s -> asyncFrame s0 (appendOption v t s).
Proof.
  intros; unfold appendOption; cbv zeta.
  destruct (cameraOptions s); auto with frame.
Qed.

Lemma frame_appendDeviceOptions : forall devices index s0 s,
  asyncFrame s0 s -> asyncFrame s0 (appendDeviceOptions index devices s).
Proof.
  induction devices as [|d devices IH]; intros index s0 s H; simpl.
  - exact H.
  - apply IH. apply frame_appendOption. exact H.
Qed.

Lemma frame_selectValue : forall v s0 s,
  asyncFrame s0 s -> asyncFrame s0 (selectValue v s).
Proof.
  intros; unfold selectValue.
  destruct (existsb _ (cameraOptions s)); auto with frame.
Qed.

Lemma frame_hideSelectorContainer : forall b s0 s,
  asyncFrame s0 s -> asyncFrame s0 (hideSelectorContainer b s).
Proof.
  intros; unfold hideSelectorContainer.
  destruct (hasSelectorContainer s); auto with frame.
Qed.

Lemma frame_initCameraFailed : forall err s0 s,
  asyncFrame s0 s -> asyncFrame s0 (initCameraFailed err s).
Proof. intros; unfold initCameraFailed; apply frame_showError; assumption. Qed.

Hint Resolve frame_showError frame_stopCurrentStream frame_clearOptions
  frame_appendOption frame_appendDeviceOptions frame_selectValue
  frame_hideSelectorContainer frame_initCameraFailed : frame.

Lemma frame_syncDeviceSelection : forall s0 s,
  asyncFrame s0 s -> asyncFrame s0 (syncDeviceSelection s).
Proof.
  intros s0 s H. unfold syncDeviceSelection.
  destruct (currentStream s) as [stream|]; [|auto with frame].
  destruct (getVideoTracks stream) as [|track rest]; [auto with frame|].
  destruct (settingsDeviceId track) as [id|]; [|exact H].
  destruct (truthy id); [|exact H].
  destruct (findIndex _ (videoDevices s)); [|exact H].
  cbv zeta. auto with frame.
Qed.

Lemma segments_andThen : forall m rest s0,
  segments asyncFrame s0 m ->
  (forall s, segments asyncFrame s (rest s)) ->
  (forall s s', asyncFrame s s' -> segments asyncFrame s' (rest s') ->
                segments asyncFrame s (rest s')) ->
  segments asyncFrame s0 (andThen m rest).
Proof.
  induction m as [s|A s req k IH]; intros rest s0 Hm Hrest Hpre; simpl in *.
  - apply Hpre; [exact Hm | apply Hrest].
  - destruct Hm as [H0 Hk]. split; [exact H0|].
    intros outcome s'. apply IH; [apply Hk | exact Hrest | exact Hpre].
Qed.

(** The start of a resumption can be moved back along the frame. *)
Lemma segments_from : forall m s s',
  asyncFrame s s' -> segments asyncFrame s' m -> segments asyncFrame s m.
Proof.
  destruct m as [s1|A s1 req k]; intros s s' H Hm; simpl in *.
  - eapply frame_trans; eassumption.
  - destruct Hm as [H1 Hk]. split; [eapply frame_trans; eassumption | exact Hk].
Qed.

Lemma populateCameraList_frame : forall s, segments asyncFrame s (populateCameraList s).
Proof.
  intro s. unfold populateCameraList. simpl. split; [apply frame_refl|].
  intros [devices|err] s'; cbv zeta.
  - match goal with |- context [if ?b then _ else _] => destruct b end;
      simpl; auto 20 with frame.
  - simpl. auto with frame.
Qed.

Lemma initCamera_frame : forall deviceId' s, segments asyncFrame s (initCamera deviceId' s).
Proof.
  intros deviceId' s. unfold initCamera. cbv zeta. simpl.
  split; [auto with frame|].
  intros [stream|err] s'; simpl; [|auto with frame].
  split; [auto with frame|].
  intros [u|err] s''; simpl; [|auto with frame].
  apply segments_andThen.
  - destruct (videoDevices s'') as [|d0 ds]; [simpl; apply frame_refl|].
    destruct (negb (truthy (label d0))); [apply populateCameraList_frame|].
    simpl; apply frame_refl.
  - intro s1. exact (frame_syncDeviceSelection s1 s1 (frame_refl s1)).
  - intros s1 s2 H12 H2. eapply segments_from; eassumption.
Qed.

Lemma switchCamera_frame : forall s, segments asyncFrame s (switchCamera s).
Proof.
  intro s. unfold switchCamera.
  destruct (1 <? length (videoDevices s))%nat; [|simpl; apply frame_refl].
  cbv zeta.
  destruct (nth_error _ _) as [device|].
  - eapply segments_from; [|apply initCamera_frame]. auto 20 with frame.
  - simpl. auto with frame.
Qed.

Lemma handleCameraSelectChange_frame : forall s,
  segments asyncFrame s (handleCameraSelectChange s).
Proof.
  intro s. unfold handleCameraSelectChange. cbv zeta.
  eapply segments_from; [|apply initCamera_frame]. auto 20 with frame.
Qed.

Lemma startApp_frame : forall s, segments asyncFrame s (startApp s).
Proof.
  intro s. unfold startApp. apply segments_andThen.
  - apply populateCameraList_frame.
  - intro s1. apply initCamera_frame.
  - intros s1 s2 H12 H2. eapply segments_from; eassumption.
Qed.

End FrameOfTheScript.

(** ** The invariant of the page *)

Lemma removeNth_Forall : forall (A : Type) (P : A -> Prop) i (l : list A),
  Forall P l -> Forall P (removeNth i l).
Proof.
  intros A P i l H; revert i.
  induction H as [|x l Hx Hl IH]; intro i; destruct i; simpl; auto.
Qed.

Ltac open_good :=
  unfold good, recordingLocksControls, untouchedButtons, chunksNonEmpty,
    artifactTracked in *.

Section InvariantOfThePage.
Context {host : Host}.

Lemma good_frame : forall s s', good s -> asyncFrame s s' -> good s'.
Proof.
  intros s s' (L & (U1 & U2) & C & A1 & A2 & A3) (F1 & F2 & F3 & F4 & F5 & F6 & F7).
  open_good. rewrite F1, F3, F4, F5, !F6, !F7. repeat split; tauto.
Qed.

Lemma good_initialState : good initialState.
Proof.
  open_good; simpl. repeat split; try discriminate. constructor.
Qed.

Lemma good_takePicture : forall tempCtx encoded s,
  good s -> good (takePicture tempCtx encoded s).
Proof.
  intros tempCtx encoded s H. unfold takePicture.
  destruct (ctx s); simpl; [|exact H].
  destruct tempCtx; [|exact H].
  destruct H as (L & U & C & A1 & A2 & A3).
  open_good; simpl.
  repeat split; try tauto; try discriminate.
  intros _. exists encoded. reflexivity.
Qed.

Lemma good_startRecording : forall canvasStream verdict s,
  good s -> good (startRecording canvasStream verdict s).
Proof.
  intros canvasStream verdict s H. unfold startRecording.
  destruct (currentStream s) as [stream|];
    [|eapply good_frame; [exact H | apply frame_showError, frame_refl]].
  destruct (ctx s);
    [|eapply good_frame; [exact H | apply frame_showError, frame_refl]].
  destruct H as (L & U & C & A1 & A2 & A3).
  destruct verdict; open_good; unfold updateRecordingUI; simpl;
    repeat split; try tauto; try constructor.
Qed.

Lemma good_stopRecording : forall s, good s -> good (stopRecording s).
Proof.
  intros s H. unfold stopRecording.
  destruct (mediaRecorder s) as [r|]; [|exact H].
  destruct H as (L & U & C & A1 & A2 & A3).
  open_good; unfold updateRecordingUI; simpl.
  repeat split; try tauto; try discriminate.
Qed.

Lemma good_toggleRecording : forall canvasStream verdict s,
  good s -> good (toggleRecording canvasStream verdict s).
Proof.
  intros canvasStream verdict s H. unfold toggleRecording.
  destruct (negb (isRecording s)); [apply good_startRecording | apply good_stopRecording];
    exact H.
Qed.

Lemma good_ondataavailable : forall data s, good s -> good (ondataavailable data s).
Proof.
  intros data s H. unfold ondataavailable.
  destruct (0 <? size data)%nat eqn:Hsize; [|exact H].
  destruct H as (L & U & C & A1 & A2 & A3).
  open_good; simpl. repeat split; try tauto.
  apply Forall_app; split; [exact C|].
  constructor; [apply Nat.ltb_lt; exact Hsize | constructor].
Qed.

Lemma good_onstop : forall id r s,
  good s -> good (onstop id (set_mediaRecorder r s)).
Proof.
  intros id r s (L & U & C & A1 & A2 & A3).
  open_good; unfold onstop; simpl.
  repeat split; try tauto; try discriminate.
  intros _. exists id. reflexivity.
Qed.

Lemma frame_handleZoomChange : forall s0 s,
  asyncFrame s0 s -> asyncFrame s0 (handleZoomChange s).
Proof. intros; unfold handleZoomChange; cbv zeta; auto with frame. Qed.

Lemma frame_saveMedia : forall iso s0 s,
  asyncFrame s0 s -> asyncFrame s0 (saveMedia iso s).
Proof.
  intros iso s0 s H. unfold saveMedia. cbv zeta.
  destruct (mediaType s) as [[|]|]; try exact H;
    match goal with |- context [if ?b then _ else _] => destruct b end;
    auto with frame.
Qed.

Lemma frame_onplaying : forall s0 s,
  asyncFrame s0 s -> asyncFrame s0 (onplaying s).
Proof.
  intros s0 s H. unfold onplaying. cbv zeta.
  match goal with |- context [if ?b then _ else _] => destruct b end;
    auto with frame.
Qed.

Lemma frame_drawFrame : forall s0 s,
  asyncFrame s0 s -> asyncFrame s0 (drawFrame s).
Proof.
  intros s0 s H. unfold drawFrame.
  match goal with |- context [if ?b then _ else _] => destruct b end;
    cbv zeta; auto 10 with frame.
Qed.

Lemma goodConfig_ran : forall s c,
  good s -> Forall waitsInFrame (pending c) -> goodConfig (ran s c).
Proof. intros s c Hs Hp. split; assumption. Qed.

Lemma goodConfig_park : forall m s rest,
  good s -> segments asyncFrame s m -> Forall waitsInFrame rest ->
  goodConfig (park m rest).
Proof.
  intros [s1|A s1 req k] s rest Hs Hm Hrest; simpl in *.
  - split; [eapply good_frame; eassumption | exact Hrest].
  - destruct Hm as [H1 Hk]. split; [eapply good_frame; eassumption|].
    simpl. apply Forall_app; split; [exact Hrest|].
    constructor; [exact Hk | constructor].
Qed.

Lemma goodConfig_boot : goodConfig boot.
Proof.
  unfold boot. eapply goodConfig_park.
  - apply good_initialState.
  - apply startApp_frame.
  - constructor.
Qed.

Lemma goodConfig_step : forall ev c, goodConfig c -> goodConfig (step ev c).
Proof.
  intros ev c [Hs Hp]. pose proof (conj Hs Hp : goodConfig c) as Hc.
  destruct ev; unfold step; cbv zeta.
  - destruct (disabled _); [exact Hc|].
    apply goodConfig_ran; [apply good_takePicture; exact Hs | exact Hp].
  - destruct (disabled _); [exact Hc|].
    apply goodConfig_ran; [apply good_toggleRecording; exact Hs | exact Hp].
  - destruct (_ || _); [exact Hc|].
    eapply goodConfig_park; [exact Hs | apply switchCamera_frame | exact Hp].
  - destruct (disabled _); [exact Hc|].
    apply goodConfig_ran; [|exact Hp].
    eapply good_frame; [exact Hs|]. apply frame_handleZoomChange. auto with frame.
  - destruct (_ || _); [exact Hc|].
    apply goodConfig_ran; [|exact Hp].
    eapply good_frame; [exact Hs|]. apply frame_saveMedia, frame_refl.
  - destruct (_ || _); [exact Hc|].
    eapply goodConfig_park; [| apply handleCameraSelectChange_frame | exact Hp].
    eapply good_frame; [exact Hs|]. auto with frame.
  - destruct (srcObject _); [|exact Hc].
    apply goodConfig_ran; [|exact Hp].
    eapply good_frame; [exact Hs|]. apply frame_onplaying. auto with frame.
  - apply goodConfig_ran; [|exact Hp].
    eapply good_frame; [exact Hs|]. auto with frame.
  - destruct (pendingFrames _); [exact Hc|].
    apply goodConfig_ran; [|exact Hp].
    eapply good_frame; [exact Hs|]. apply frame_drawFrame. auto with frame.
  - destruct (mediaRecorder _); [|exact Hc].
    apply goodConfig_ran; [apply good_ondataavailable; exact Hs | exact Hp].
  - destruct (mediaRecorder _); [|exact Hc].
    apply goodConfig_ran; [apply good_onstop; exact Hs | exact Hp].
  - apply goodConfig_ran; [|exact Hp].
    eapply good_frame; [exact Hs|]. apply frame_stopCurrentStream, frame_refl.
  - destruct (nth_error (pending c) i) as [[A req k]|] eqn:Hnth; [|exact Hc].
    destruct (deliver req a) as [outcome|]; [|exact Hc].
    eapply goodConfig_park; [exact Hs | | apply removeNth_Forall; exact Hp].
    apply nth_error_In in Hnth.
    rewrite Forall_forall in Hp. apply (Hp _ Hnth).
Qed.

Lemma goodConfig_exec : forall evs c, goodConfig c -> goodConfig (exec evs c).
Proof.
  induction evs as [|ev evs IH]; intros c Hc; simpl.
  - exact Hc.
  - apply IH. apply goodConfig_step. exact Hc.
Qed.

Lemma reachable_good : forall c, reachable c -> good (st c).
Proof.
  intros c [evs ->]. apply (goodConfig_exec evs boot goodConfig_boot).
Qed.

End InvariantOfThePage.

(** ** Invariants of the reachable configurations *)

Section ReachableProperties.
Context {host : Host}.

(** C5, as amended.  In every reachable configuration in which the script
    is recording, the capture button, the switch-camera button and the
    camera drop-down are disabled and the zoom slider is enabled.  The
    record button and the save button are never disabled by the script:
    their [disabled] flag is the one of the markup. *)
Theorem recording_locks_capture_and_camera_controls : forall c,
  reachable c -> isRecording (st c) = true ->
  disabled (dom (st c) captureButton) = true /\
  disabled (dom (st c) switchCameraButton) = true /\
  disabled (dom (st c) cameraSelect) = true /\
  disabled (dom (st c) zoomSlider) = false /\
  disabled (dom (st c) recordButton) = disabled (markup recordButton) /\
  disabled (dom (st c) saveButton) = disabled (markup saveButton).
Proof.
  intros c Hc Hrec.
  destruct (reachable_good c Hc) as (L & (U1 & U2) & _).
  destruct (L Hrec) as (L1 & L2 & L3 & L4).
  repeat split; assumption.
Qed.

(** C10.  In every reachable configuration every chunk of the recording
    buffer has a size above zero, and the data handler appends the chunk it
    receives exactly when its size is above zero. *)
Theorem recorded_chunks_are_never_empty : forall c,
  reachable c ->
  Forall (fun chunk => 0 < size chunk) (recordedChunks (st c)) /\
  forall data,
    recordedChunks (ondataavailable data (st c))
    = if (0 <? size data)%nat then (recordedChunks (st c) ++ [data])%list
      else recordedChunks (st c).
Proof.
  intros c Hc. split.
  - destruct (reachable_good c Hc) as (_ & _ & C & _). exact C.
  - intro data. unfold ondataavailable.
    destruct (0 <? size data)%nat; reflexivity.
Qed.

Lemma dataURL_usable : forall encoded,
  String.prefix "data:" locationHref = false ->
  truthy (dataURL encoded) && negb (String.eqb (dataURL encoded) locationHref) = true.
Proof.
  intros encoded Hhref.
  destruct (String.eqb (dataURL encoded) locationHref) eqn:E; [|reflexivity].
  apply String.eqb_eq in E. rewrite <- E in Hhref.
  unfold dataURL in Hhref. destruct encoded; cbn in Hhref; discriminate Hhref.
Qed.

(** C6.  In every reachable configuration [saveMedia] offers the artifact
    produced last: after a photo (the latest artifact is a still made by
    [toDataURL]) it clicks one link to the photo, named [photo-], the
    timestamp, [.jpg]; after a video (the latest artifact is a clip given a
    URL by [createObjectURL]) it clicks one link to the clip, named
    [video-], the timestamp, [.mp4]; with no artifact it changes nothing.
    The timestamp is the ISO string of the moment with [:] and [.] replaced
    by [-].  The page address is taken not to be a [data:] URL. *)
Theorem saveMedia_offers_latest_artifact : forall c iso,
  reachable c ->
  String.prefix "data:" locationHref = false ->
  mediaType (st c) = latestArtifact (effects (st c)) /\
  match latestArtifact (effects (st c)) with
  | Some Photo =>
      saveMedia iso (st c)
      = log (LinkClick (src (dom (st c) photo))
               ("photo-" ++ replaceColonDot iso ++ ".jpg")) (st c)
  | Some Video =>
      saveMedia iso (st c)
      = log (LinkClick (src (dom (st c) recordedVideo))
               ("video-" ++ replaceColonDot iso ++ ".mp4")) (st c)
  | None => saveMedia iso (st c) = st c
  end.
Proof.
  intros c iso Hc Hhref.
  destruct (reachable_good c Hc) as (_ & _ & _ & A1 & A2 & A3).
  split; [exact A1|]. rewrite <- A1.
  unfold saveMedia. cbv zeta.
  destruct (mediaType (st c)) as [[|]|].
  - destruct (A2 eq_refl) as [encoded E]. rewrite E.
    rewrite (dataURL_usable encoded Hhref). reflexivity.
  - destruct (A3 eq_refl) as [id E]. rewrite E. reflexivity.
  - reflexivity.
Qed.

End ReachableProperties.

(** ** The script on the sample page *)

Module Examples.
Import Sample.

Lemma reachable_exec : forall evs, reachable (exec evs boot).
Proof. intro evs. exists evs. reflexivity. Defined.

(** C1 on the sample page: zoom 2.5 on a 1280x720 frame, the preview drawn
    before and the still taken after a frame callback. *)
Lemma crop_agreement_on_sample_page :
  lastCrop DisplayCanvas (effects (drawFrame afterZoom))
  = lastCrop TempCanvas
      (effects (takePicture true "image/jpeg;base64,AAAA"
                  afterZoomAndFrame))
  /\ lastCrop DisplayCanvas (effects (drawFrame afterZoom))
     = Some (cropRectangle 1280 720 2.5).
Proof.
  apply (preview_and_capture_crop_agree 1280 720 2.5); reflexivity.
Defined.

(** C3 on the sample page: the record button is clicked while the first
    request for a stream is still pending. *)
Lemma startRecording_before_stream_on_sample_page :
  currentStream atBoot = None /\
  isRecording (startRecording canvasCapture Starts atBoot) = false /\
  mediaRecorder (startRecording canvasCapture Starts atBoot) = None /\
  textContent (dom (startRecording canvasCapture Starts atBoot) errorMsgElement)
  = cannotStartMessage.
Proof.
  split; [reflexivity|].
  destruct (startRecording_needs_stream_and_context canvasCapture Starts atBoot
              (or_introl eq_refl)) as (_ & H1 & H2 & _ & _ & H3 & _).
  split; [exact H1|]. split; [exact H2 | exact H3].
Defined.

(** C4 as stated fails: after a first clip the buffer holds its chunk, and a
    start that the platform refuses for the codec leaves the buffer empty. *)
Lemma rejected_codec_empties_chunk_buffer :
  reachable afterFirstClip /\
  isRecording (st afterFirstClip) = false /\
  recordedChunks (st afterFirstClip) = [chunk] /\
  isRecording (st (step codecRefused afterFirstClip)) = false /\
  recordedChunks (st (step codecRefused afterFirstClip)) = [] /\
  recordedChunks (st (step codecRefused afterFirstClip))
  <> recordedChunks (st afterFirstClip).
Proof.
  split; [apply reachable_exec|].
  repeat split; try reflexivity.
  intro H. discriminate H.
Qed.

(** C4, as amended, on the sample page. *)
Lemma rejected_codec_on_sample_page :
  isRecording (startRecording canvasCapture (ConstructorThrows OtherValue)
                 (st afterFirstClip)) = false /\
  recordedChunks (startRecording canvasCapture (ConstructorThrows OtherValue)
                    (st afterFirstClip)) = [].
Proof.
  destruct (rejected_codec_stays_idle_with_empty_buffer canvasCapture OtherValue
              (st afterFirstClip) frontStream eq_refl eq_refl)
    as (_ & H1 & _ & H2 & _).
  split; [exact H1 | exact H2].
Defined.

(** C5 as stated fails: with a photo taken before the recording starts the
    save button is visible and enabled while recording. *)
Lemma save_button_enabled_while_recording :
  reachable whileRecordingWithPhoto /\
  isRecording (st whileRecordingWithPhoto) = true /\
  hidden (dom (st whileRecordingWithPhoto) saveButton) = false /\
  disabled (dom (st whileRecordingWithPhoto) saveButton) = false.
Proof.
  split; [apply reachable_exec|]. repeat split; reflexivity.
Qed.

(** C5, as amended, on the sample page. *)
Lemma recording_locks_on_sample_page :
  disabled (dom (st whileRecordingWithPhoto) captureButton) = true /\
  disabled (dom (st whileRecordingWithPhoto) switchCameraButton) = true /\
  disabled (dom (st whileRecordingWithPhoto) cameraSelect) = true /\
  disabled (dom (st whileRecordingWithPhoto) zoomSlider) = false /\
  disabled (dom (st whileRecordingWithPhoto) recordButton)
  = disabled (markup recordButton) /\
  disabled (dom (st whileRecordingWithPhoto) saveButton)
  = disabled (markup saveButton).
Proof.
  apply recording_locks_capture_and_camera_controls;
    [apply reachable_exec | reflexivity].
Defined.

(** C6 on the sample page: a photo, then a video; the save button offers
    the video. *)
Lemma save_after_photo_then_video :
  mediaType (st afterPhotoThenVideo) = Some Video /\
  downloads (effects (saveMedia "2024-05-01T10:20:30.456Z" (st afterPhotoThenVideo)))
  = [("blob:clip-1", "video-2024-05-01T10-20-30-456Z.mp4")].
Proof.
  destruct (saveMedia_offers_latest_artifact afterPhotoThenVideo
              "2024-05-01T10:20:30.456Z" (reachable_exec photoThenVideo) eq_refl)
    as [H1 H2].
  split; [exact H1|].
  change (latestArtifact (effects (st afterPhotoThenVideo))) with (Some Video) in H2.
  rewrite H2. reflexivity.
Defined.

(** C8 on the sample page: a recording is stopped before any chunk. *)
Lemma stop_before_any_chunk_on_sample_page :
  isRecording (stopRecording whileRecordingNothingYet) = false /\
  mediaType (onstop "clip-0" (stopRecording whileRecordingNothingYet))
  = Some Video /\
  src (dom (onstop "clip-0" (stopRecording whileRecordingNothingYet))
         recordedVideo) = "blob:clip-0".
Proof.
  destruct (stop_with_empty_buffer_publishes_empty_clip canvasCapture Starts
              whileRecordingNothingYet sampleRecorder "clip-0"
              eq_refl eq_refl eq_refl eq_refl)
    as (_ & H1 & _ & _ & _ & H2 & H3 & _).
  split; [exact H1|]. split; [exact H2 | exact H3].
Defined.

(** C10 on the sample page: a recording with one chunk. *)
Lemma chunks_on_sample_page :
  Forall (fun chunk => 0 < size chunk)
    (recordedChunks (st whileRecordingOneChunk)) /\
  forall data,
    recordedChunks (ondataavailable data (st whileRecordingOneChunk))
    = if (0 <? size data)%nat
      then (recordedChunks (st whileRecordingOneChunk) ++ [data])%list
      else recordedChunks (st whileRecordingOneChunk).
Proof.
  apply recorded_chunks_are_never_empty. apply reachable_exec.
Defined.

End Examples.

(** * Further properties of the script *)

(** ** Helpers *)

Lemma findIndex_Some : forall (A : Type) (p : A -> bool) l i,
  findIndex p l = Some i ->
  exists x, nth_error l i = Some x /\ p x = true /\
            forall j y, j < i -> nth_error l j = Some y -> p y = false.
Proof.
  intros A p; induction l as [|x l IH]; intros i H; simpl in H; [discriminate|].
  destruct (p x) eqn:Hp.
  - injection H as <-. exists x. split; [reflexivity|]. split; [exact Hp|].
    intros j y Hj; lia.
  - destruct (findIndex p l) as [i'|] eqn:Hf; [|discriminate].
    injection H as <-. destruct (IH i' eq_refl) as (y & Hn & Hy & Hbefore).
    exists y. split; [exact Hn|]. split; [exact Hy|].
    intros [|j] z Hj Hz; simpl in Hz.
    + injection Hz as <-. exact Hp.
    + apply (Hbefore j z); [lia | exact Hz].
Qed.

Lemma findIndex_None : forall (A : Type) (p : A -> bool) l,
  findIndex p l = None -> forall x, In x l -> p x = false.
Proof.
  intros A p; induction l as [|y l IH]; intros H x Hin; simpl in *; [contradiction|].
  destruct (p y) eqn:Hp; [discriminate|].
  destruct (findIndex p l); [discriminate|].
  destruct Hin as [<-|Hin]; [exact Hp | apply IH; [reflexivity | exact Hin]].
Qed.

Lemma optionsFrom_values : forall devices index,
  map fst (optionsFrom index devices) = map deviceId devices.
Proof.
  induction devices as [|d devices IH]; intro index; simpl; [reflexivity|].
  rewrite IH. reflexivity.
Qed.

Lemma optionsFrom_has : forall devices index d,
  In d devices ->
  existsb (fun o => String.eqb (fst o) (deviceId d)) (optionsFrom index devices) = true.
Proof.
  intros devices index d Hin. apply existsb_exists.
  assert (H : In (deviceId d) (map fst (optionsFrom index devices))).
  { rewrite optionsFrom_values. apply in_map. exact Hin. }
  apply in_map_iff in H. destruct H as (o & Ho & Hino).
  exists o. split; [exact Hino|]. rewrite Ho. apply String.eqb_refl.
Qed.

Lemma appendDeviceOptions_eq : forall devices index s,
  appendDeviceOptions index devices s
  = match devices, cameraOptions s with
    | [], _ => s
    | d :: _, [] =>
        setEl cameraSelect (set_value (deviceId d))
          (set_cameraOptions (optionsFrom index devices) s)
    | _ :: _, _ :: _ =>
        set_cameraOptions (cameraOptions s ++ optionsFrom index devices)%list s
    end.
Proof.
  induction devices as [|d devices IH]; intros index s; simpl; [reflexivity|].
  rewrite IH. unfold appendOption, optionFor. cbv zeta.
  destruct devices as [|d' devices]; destruct (cameraOptions s) as [|o os] eqn:E;
    simpl; try reflexivity.
  rewrite <- app_assoc. reflexivity.
Qed.

Section FurtherHandlerProperties.
Context {host : Host}.

(** ** Releasing the stream *)

(** X1.  [stopCurrentStream] stops every track of the stream held, once and
    in order, and holds no stream afterwards; with no stream held it changes
    nothing, so calling it again is harmless. *)
Theorem stopCurrentStream_idempotent : forall s,
  currentStream (stopCurrentStream s) = None /\
  effects (stopCurrentStream s)
  = match currentStream s with
    | Some stream => (rev (map TrackStop (getTracks stream)) ++ effects s)%list
    | None => effects s
    end /\
  (currentStream s = None -> stopCurrentStream s = s) /\
  stopCurrentStream (stopCurrentStream s) = stopCurrentStream s.
Proof.
  intro s. split; [apply stopCurrentStream_none|].
  split; [rewrite stopCurrentStream_eq; destruct (currentStream s); reflexivity|].
  split; [intro H; rewrite stopCurrentStream_eq, H; reflexivity|].
  unfold stopCurrentStream at 1. rewrite stopCurrentStream_none. reflexivity.
Qed.

(** ** Saving *)

(** X2.  The timestamp of a download name keeps the length of the ISO
    string and every character of it but [:] and [.], which become [-]: the
    result holds neither, and replacing again changes nothing. *)
Theorem replaceColonDot_strips_separators : forall str,
  String.length (replaceColonDot str) = String.length str /\
  ~ In ":"%char (list_ascii_of_string (replaceColonDot str)) /\
  ~ In "."%char (list_ascii_of_string (replaceColonDot str)) /\
  (forall n, String.get n (replaceColonDot str)
             = match String.get n str with
               | Some c => Some (if Ascii.eqb c ":" || Ascii.eqb c "." then "-"%char else c)
               | None => None
               end) /\
  replaceColonDot (replaceColonDot str) = replaceColonDot str.
Proof.
  induction str as [|c str (IH1 & IH2 & IH3 & IH4 & IH5)]; simpl.
  - split; [reflexivity|]. split; [intros []|]. split; [intros []|].
    split; [intros [|n]; reflexivity | reflexivity].
  - split; [rewrite IH1; reflexivity|].
    split.
    { intros [H|H]; [|exact (IH2 H)].
      destruct (Ascii.eqb c ":") eqn:E1; simpl in H; [discriminate H|].
      destruct (Ascii.eqb c ".") eqn:E2; simpl in H; [discriminate H|].
      apply Ascii.eqb_neq in E1. apply E1. exact H. }
    split.
    { intros [H|H]; [|exact (IH3 H)].
      destruct (Ascii.eqb c ":") eqn:E1; simpl in H; [discriminate H|].
      destruct (Ascii.eqb c ".") eqn:E2; simpl in H; [discriminate H|].
      apply Ascii.eqb_neq in E2. apply E2. exact H. }
    split.
    { intros [|n]; [reflexivity | apply IH4]. }
    rewrite IH5. f_equal.
    destruct (Ascii.eqb c ":") eqn:E1; simpl; [reflexivity|].
    destruct (Ascii.eqb c ".") eqn:E2; simpl; [reflexivity|].
    rewrite E1, E2. reflexivity.
Qed.

Lemma saveMedia_cases : forall iso s,
  saveMedia iso s = s \/
  exists href name, saveMedia iso s = log (LinkClick href name) s.
Proof.
  intros iso s. unfold saveMedia. cbv zeta.
  destruct (mediaType s) as [[|]|]; [| |left; reflexivity];
    match goal with |- context [if ?b then _ else _] => destruct b end;
    try (left; reflexivity); right; eexists; eexists; reflexivity.
Qed.

(** X3.  [saveMedia] changes nothing but the log, to which it adds at most
    one link click; and it adds none when the element of the current
    artifact has no source: a photo whose [src] is empty or is the address of
    the page (an image without source), a video whose [src] is empty. *)
Theorem saveMedia_clicks_at_most_once : forall iso s,
  (saveMedia iso s = s \/
   exists href name, saveMedia iso s = log (LinkClick href name) s) /\
  (mediaType s = Some Photo ->
   src (dom s photo) = EmptyString \/ src (dom s photo) = locationHref ->
   saveMedia iso s = s) /\
  (mediaType s = Some Video -> src (dom s recordedVideo) = EmptyString ->
   saveMedia iso s = s).
Proof.
  intros iso s. split; [apply saveMedia_cases|].
  unfold saveMedia. cbv zeta. split.
  - intros -> [H|H]; rewrite H; [reflexivity|].
    rewrite String.eqb_refl. rewrite andb_false_r. reflexivity.
  - intros -> H. rewrite H. reflexivity.
Qed.

End FurtherHandlerProperties.

(** ** Listing the cameras *)

Section ListingProperties.
Context {host : Host}.

(** What the fulfilled branch of [populateCameraList] leaves, whatever the
    devices: the video inputs, and the options made from them. *)
Lemma populateCameraList_fulfilled : forall s,
  exists k,
    populateCameraList s = Await s EnumerateDevices k /\
    (forall err s',
       k (Rejected err) s'
       = Done (showError
                 (withErrorDetail "カメラデバイスの取得中にエラーが発生しました。" err) s')) /\
    forall devices s', exists s'',
      k (Fulfilled devices) s' = Done s'' /\
      videoDevices s''
      = filter (fun device => DeviceKind_eqb (kind device) videoinput) devices /\
      cameraOptions s'' = optionsFrom 0 (videoDevices s'') /\
      (videoDevices s'' <> [] -> listingFrame s' s'') /\
      currentStream s'' = currentStream s' /\
      video s'' = video s' /\
      currentZoom s'' = currentZoom s' /\
      hasSelectorContainer s'' = hasSelectorContainer s' /\
      hidden (dom s'' switchCameraButton) = (length (videoDevices s'') <=? 1)%nat /\
      (hasSelectorContainer s' = true ->
       hidden (dom s'' selectorContainer) = (length (videoDevices s'') <=? 1)%nat) /\
      value (dom s'' cameraSelect)
      = match videoDevices s'' with d :: _ => deviceId d | [] => EmptyString end.
Proof.
  intro s. eexists. split; [reflexivity|]. split; [reflexivity|].
  intros devices s'. cbv beta iota zeta. simpl videoDevices.
  remember (filter (fun device => DeviceKind_eqb (kind device) videoinput) devices)
    as cams eqn:Hcams.
  destruct cams as [|d rest].
  - simpl. eexists. split; [reflexivity|].
    unfold hideSelectorContainer. simpl.
    destruct (hasSelectorContainer s') eqn:Hc; simpl;
      repeat split; intros; try reflexivity; try assumption; congruence.
  - simpl Nat.eqb. cbv iota. eexists. split; [reflexivity|].
    rewrite appendDeviceOptions_eq. simpl cameraOptions at 1. cbv iota.
    unfold hideSelectorContainer. simpl.
    destruct (hasSelectorContainer s') eqn:Hc; simpl.
    + split; [reflexivity|]. split; [reflexivity|].
      split.
      { intros _. unfold listingFrame; simpl. repeat split.
        intros id H1 H2 H3.
        rewrite (ElemId_eqb_neq _ _ H3), (ElemId_eqb_neq _ _ H2), (ElemId_eqb_neq _ _ H1).
        reflexivity. }
      repeat split; intros; try reflexivity; try assumption; congruence.
    + split; [reflexivity|]. split; [reflexivity|].
      split.
      { intros _. unfold listingFrame; simpl. repeat split.
        intros id H1 H2 H3.
        rewrite (ElemId_eqb_neq _ _ H2), (ElemId_eqb_neq _ _ H1).
        reflexivity. }
      repeat split; intros; try reflexivity; try assumption; congruence.
Qed.

(** X4.  When the enumeration yields no video input, [populateCameraList]
    empties the device list and the drop-down, hides the switch button and
    the selector container, and shows the message that no camera is
    available; the stream is not touched. *)
Theorem populateCameraList_without_camera : forall s devices,
  filter (fun device => DeviceKind_eqb (kind device) videoinput) devices = [] ->
  exists s',
    settle (populateCameraList s) [GotDevices devices] = Some s' /\
    videoDevices s' = [] /\
    cameraOptions s' = [] /\
    value (dom s' cameraSelect) = EmptyString /\
    hidden (dom s' switchCameraButton) = true /\
    (hasSelectorContainer s = true -> hidden (dom s' selectorContainer) = true) /\
    hidden (dom s' errorMsgElement) = false /\
    textContent (dom s' errorMsgElement) = "利用可能なカメラが見つかりません。" /\
    currentStream s' = currentStream s.
Proof.
  intros s devices Hnone.
  unfold populateCameraList. cbn [settle deliver]. cbv zeta. simpl videoDevices.
  rewrite Hnone. simpl. eexists. split; [reflexivity|].
  unfold hideSelectorContainer. simpl.
  destruct (hasSelectorContainer s); simpl; repeat split; intro; discriminate.
Qed.

(** X5.  When the enumeration yields video inputs, [populateCameraList]
    keeps exactly them, in order, as the device list and makes one option
    per device: its value is the device id and its text the label, or the
    word for camera with the one-based position when the label is empty.
    The first device is selected, and the switch button and the selector
    container are hidden exactly when there is a single camera.  Nothing
    else changes; in particular no error is reported. *)
Theorem populateCameraList_lists_cameras : forall s devices d rest,
  filter (fun device => DeviceKind_eqb (kind device) videoinput) devices = d :: rest ->
  exists s',
    settle (populateCameraList s) [GotDevices devices] = Some s' /\
    videoDevices s' = d :: rest /\
    cameraOptions s' = optionsFrom 0 (d :: rest) /\
    map fst (cameraOptions s') = map deviceId (d :: rest) /\
    value (dom s' cameraSelect) = deviceId d /\
    hidden (dom s' switchCameraButton) = (length rest =? 0)%nat /\
    (hasSelectorContainer s = true ->
     hidden (dom s' selectorContainer) = (length rest =? 0)%nat) /\
    listingFrame s s'.
Proof.
  intros s devices d rest Hcams.
  destruct (populateCameraList_fulfilled s) as (k & Hk & _ & Hful).
  destruct (Hful devices s) as (s' & Hdone & Hv & Ho & Hframe & _ & _ & _ & _ & Hsw & Hct & Hval).
  rewrite Hcams in Hv.
  exists s'. rewrite Hk. cbn [settle deliver]. rewrite Hdone. cbn [settle].
  rewrite Hv in *.
  split; [reflexivity|]. split; [reflexivity|]. split; [exact Ho|].
  split; [rewrite Ho; apply optionsFrom_values|].
  split; [exact Hval|].
  assert (E : (length (d :: rest) <=? 1)%nat = (length rest =? 0)%nat).
  { simpl. destruct (length rest); reflexivity. }
  rewrite E in Hsw, Hct.
  split; [exact Hsw|]. split; [exact Hct|].
  apply Hframe. discriminate.
Qed.

(** X6.  [startApp] goes on to ask for a camera whatever the enumeration
    gives: with devices, with none, or with a failure, the next request is
    [getUserMedia] with audio, for the first listed video device when there
    is one and for any camera otherwise.  A failed enumeration leaves the
    device list as it was and shows its error first. *)
Theorem startApp_always_asks_for_a_camera : forall s,
  exists k,
    startApp s = Await s EnumerateDevices k /\
    forall outcome s', exists s1 constraints k',
      k outcome s' = Await s1 (GetUserMedia constraints) k' /\
      currentStream s1 = None /\
      audio constraints = true /\
      exactDeviceId constraints = option_map deviceId (hd_error (videoDevices s1)) /\
      videoDevices s1
      = match outcome with
        | Fulfilled devices =>
            filter (fun device => DeviceKind_eqb (kind device) videoinput) devices
        | Rejected _ => videoDevices s'
        end /\
      match outcome with
      | Fulfilled _ => True
      | Rejected err =>
          textContent (dom s1 errorMsgElement)
          = withErrorDetail "カメラデバイスの取得中にエラーが発生しました。" err
      end.
Proof.
  intro s. unfold startApp.
  destruct (populateCameraList_fulfilled s) as (k & Hk & Hrej & Hful).
  rewrite Hk. cbn [andThen]. eexists. split; [reflexivity|].
  intros [devices|err] s'.
  - destruct (Hful devices s') as (s'' & Hdone & Hv & _).
    rewrite Hdone. cbn [andThen]. unfold initCamera. cbv zeta.
    eexists; eexists; eexists. split; [reflexivity|].
    split; [apply stopCurrentStream_none|].
    split; [reflexivity|].
    assert (E : videoDevices (stopCurrentStream s'') = videoDevices s'').
    { rewrite stopCurrentStream_eq. destruct (currentStream s''); reflexivity. }
    split; [simpl; rewrite E; destruct (videoDevices s''); reflexivity|].
    rewrite E. split; [exact Hv | exact I].
  - rewrite Hrej. cbn [andThen]. unfold initCamera. cbv zeta.
    eexists; eexists; eexists. split; [reflexivity|].
    split; [apply stopCurrentStream_none|].
    split; [reflexivity|].
    rewrite stopCurrentStream_eq.
    destruct (currentStream (showError _ s')); simpl;
      (split; [destruct (videoDevices s'); reflexivity | split; reflexivity]).
Qed.

End ListingProperties.

(** ** Choosing and opening a camera *)

Section OpeningProperties.
Context {host : Host}.

Lemma syncDeviceSelection_keeps : forall s,
  currentStream (syncDeviceSelection s) = currentStream s /\
  video (syncDeviceSelection s) = video s /\
  currentZoom (syncDeviceSelection s) = currentZoom s /\
  videoDevices (syncDeviceSelection s) = videoDevices s /\
  cameraOptions (syncDeviceSelection s) = cameraOptions s /\
  (forall e, In e (effects s) -> In e (effects (syncDeviceSelection s))).
Proof.
  intro s. unfold syncDeviceSelection, initCameraFailed, selectValue.
  destruct (currentStream s) as [stream|] eqn:Hs;
    [|simpl; rewrite Hs; repeat split; intros; simpl; auto].
  destruct (getVideoTracks stream) as [|track rest];
    [simpl; rewrite Hs; repeat split; intros; simpl; auto|].
  destruct (settingsDeviceId track) as [id|]; [|rewrite Hs; repeat split; auto].
  destruct (truthy id); [|rewrite Hs; repeat split; auto].
  destruct (findIndex _ (videoDevices s)); [|rewrite Hs; repeat split; auto].
  cbv zeta. simpl cameraOptions.
  destruct (existsb _ (cameraOptions s)); simpl; rewrite Hs; repeat split; auto.
Qed.

(** X7.  [switchCamera] with more than one device moves to the next device
    of the list, from the last one back to the first: the index becomes the
    successor modulo the number of devices, the drop-down shows that device
    (the options being those of the device list), and the stream requested
    is the one of exactly that device when its id is not empty. *)
Theorem switchCamera_requests_next_device : forall s,
  1 < length (videoDevices s) ->
  dropdownListsDevices s ->
  exists device s1 constraints k,
    nth_error (videoDevices s)
      ((currentDeviceIndex s + 1) mod length (videoDevices s)) = Some device /\
    switchCamera s = Await s1 (GetUserMedia constraints) k /\
    currentDeviceIndex s1 = (currentDeviceIndex s + 1) mod length (videoDevices s) /\
    (currentDeviceIndex s + 1 = length (videoDevices s) -> currentDeviceIndex s1 = 0) /\
    value (dom s1 cameraSelect) = deviceId device /\
    (truthy (deviceId device) = true ->
     exactDeviceId constraints = Some (deviceId device)).
Proof.
  intros s Hlen Hdrop. unfold switchCamera.
  destruct (1 <? length (videoDevices s))%nat eqn:Hltb;
    [|apply Nat.ltb_ge in Hltb; lia].
  cbv zeta. simpl videoDevices. simpl currentDeviceIndex.
  destruct (nth_error (videoDevices s)
              ((currentDeviceIndex s + 1) mod length (videoDevices s)))
    as [device|] eqn:Hnth.
  2:{ exfalso. apply nth_error_None in Hnth.
      pose proof (Nat.mod_upper_bound (currentDeviceIndex s + 1) (length (videoDevices s))).
      lia. }
  exists device. unfold initCamera. cbv zeta.
  eexists; eexists; eexists. split; [reflexivity|]. split; [reflexivity|].
  assert (Hopt : existsb (fun o => String.eqb (fst o) (deviceId device)) (cameraOptions s)
                 = true).
  { rewrite Hdrop. apply optionsFrom_has. eapply nth_error_In. exact Hnth. }
  rewrite stopCurrentStream_eq.
  unfold selectValue. simpl cameraOptions. rewrite Hopt.
  split; [destruct (currentStream _); reflexivity|].
  split.
  { intro Hlast. rewrite Hlast, Nat.Div0.mod_same.
    destruct (currentStream _); reflexivity. }
  split; [destruct (currentStream _); reflexivity|].
  intro Htruthy. simpl. rewrite Htruthy. reflexivity.
Qed.

(** X8.  After a stream is obtained, [syncDeviceSelection] (lines 121-130)
    aligns the selection with the device the stream really comes from: when
    the first video track reports a device id that the list knows, the index
    becomes the first position of a device with that id and the drop-down
    shows it; when the list does not know the id, nothing changes. *)
Theorem syncDeviceSelection_selects_stream_device : forall s stream track rest id,
  currentStream s = Some stream ->
  getVideoTracks stream = track :: rest ->
  settingsDeviceId track = Some id ->
  truthy id = true ->
  ((forall d, In d (videoDevices s) -> deviceId d <> id) ->
   syncDeviceSelection s = s) /\
  ((exists d, In d (videoDevices s) /\ deviceId d = id) ->
   exists d,
     nth_error (videoDevices s) (currentDeviceIndex (syncDeviceSelection s)) = Some d /\
     deviceId d = id /\
     (forall j d', j < currentDeviceIndex (syncDeviceSelection s) ->
                   nth_error (videoDevices s) j = Some d' -> deviceId d' <> id) /\
     (dropdownListsDevices s -> value (dom (syncDeviceSelection s) cameraSelect) = id)).
Proof.
  intros s stream track rest id Hs Ht Hid Htruthy.
  unfold syncDeviceSelection. rewrite Hs, Ht, Hid, Htruthy.
  destruct (findIndex (fun d => String.eqb (deviceId d) id) (videoDevices s))
    as [idx|] eqn:Hfind.
  - apply findIndex_Some in Hfind. destruct Hfind as (d & Hnth & Hd & Hbefore).
    apply String.eqb_eq in Hd.
    split.
    { intro Hnone. exfalso. apply (Hnone d); [eapply nth_error_In; exact Hnth | exact Hd]. }
    intros _. exists d. cbv zeta. unfold selectValue. simpl cameraOptions.
    assert (Hidx : forall b : bool, currentDeviceIndex
                     (if b then setEl cameraSelect (set_value id) (set_currentDeviceIndex idx s)
                      else setEl cameraSelect (set_value EmptyString)
                             (set_currentDeviceIndex idx s)) = idx)
      by (intros []; reflexivity).
    rewrite Hidx.
    split; [exact Hnth|]. split; [exact Hd|].
    split.
    { intros j d' Hj Hj' Heq. apply String.eqb_eq in Heq.
      rewrite (Hbefore j d' Hj Hj') in Heq. discriminate Heq. }
    intro Hdrop.
    assert (Hopt : existsb (fun o => String.eqb (fst o) id) (cameraOptions s) = true).
    { rewrite Hdrop, <- Hd. apply optionsFrom_has. eapply nth_error_In. exact Hnth. }
    rewrite Hopt. reflexivity.
  - split; [reflexivity|].
    intros (d & Hin & Hd). exfalso.
    pose proof (findIndex_None MediaDeviceInfo _ _ Hfind d Hin) as Hf. simpl in Hf.
    rewrite Hd, String.eqb_refl in Hf. discriminate Hf.
Qed.

(** X9.  An acquisition on its own that succeeds, with the device labels
    already known: [initCamera] releases the stream it held, stores the new
    one and plays it in the video element.  The zoom, the device list and
    the options are as before. *)
Theorem initCamera_stores_stream : forall deviceId' s stream,
  match videoDevices s with
  | d0 :: _ => truthy (label d0) = true
  | [] => True
  end ->
  exists s',
    settle (initCamera deviceId' s) [GotStream stream; Played] = Some s' /\
    currentStream s' = Some stream /\
    srcObject (video s') = Some stream /\
    released s s' /\
    currentZoom s' = currentZoom s /\
    videoDevices s' = videoDevices s /\
    cameraOptions s' = cameraOptions s.
Proof.
  intros deviceId' s stream Hlabels.
  unfold initCamera. cbv zeta. cbn [settle deliver]. simpl videoDevices.
  assert (Hv : forall x, videoDevices (stopCurrentStream x) = videoDevices x).
  { intro x. rewrite stopCurrentStream_eq. destruct (currentStream x); reflexivity. }
  rewrite Hv.
  assert (Hno : match videoDevices s with
                | d0 :: _ => negb (truthy (label d0))
                | [] => false
                end = false).
  { destruct (videoDevices s); [reflexivity|]. rewrite Hlabels. reflexivity. }
  rewrite Hno. cbn [andThen settle].
  eexists. split; [reflexivity|].
  match goal with |- context [syncDeviceSelection ?x] =>
    destruct (syncDeviceSelection_keeps x) as (K1 & K2 & K3 & K4 & K5 & K6)
  end.
  rewrite K1, K2, K3, K4, K5. simpl.
  split; [reflexivity|]. split; [reflexivity|].
  split.
  { intros old track Hold Hin. apply K6. simpl.
    apply (stopCurrentStream_released s old track Hold Hin). }
  rewrite stopCurrentStream_eq.
  destruct (currentStream s); simpl; repeat split.
Qed.

(** X10.  An acquisition on its own that succeeds while the first device
    of the list has no label (as before access is granted): [initCamera]
    enumerates the devices again and ends with the device list and the
    options rebuilt from that second enumeration, and with the new stream. *)
Theorem initCamera_relists_unlabelled_devices :
  forall deviceId' s d0 rest stream devices,
    videoDevices s = d0 :: rest ->
    label d0 = EmptyString ->
    exists s',
      settle (initCamera deviceId' s) [GotStream stream; Played; GotDevices devices]
      = Some s' /\
      videoDevices s'
      = filter (fun device => DeviceKind_eqb (kind device) videoinput) devices /\
      cameraOptions s' = optionsFrom 0 (videoDevices s') /\
      currentStream s' = Some stream /\
      srcObject (video s') = Some stream.
Proof.
  intros deviceId' s d0 rest stream devices Hdev Hlabel.
  unfold initCamera. cbv zeta. cbn [settle deliver]. simpl videoDevices.
  assert (Hv : forall x, videoDevices (stopCurrentStream x) = videoDevices x).
  { intro x. rewrite stopCurrentStream_eq. destruct (currentStream x); reflexivity. }
  rewrite Hv, Hdev, Hlabel. simpl negb. cbv iota.
  match goal with |- context [populateCameraList ?x] =>
    destruct (populateCameraList_fulfilled x) as (k & Hk & _ & Hful); rewrite Hk;
    destruct (Hful devices x) as (s'' & Hdone & P1 & P2 & _ & P4 & P5 & _)
  end.
  cbn [andThen settle deliver]. rewrite Hdone. cbn [andThen settle].
  eexists. split; [reflexivity|].
  destruct (syncDeviceSelection_keeps s'') as (K1 & K2 & _ & K4 & K5 & _).
  rewrite K1, K2, K4, K5, P4, P5.
  split; [exact P1|]. split; [exact P2|]. split; reflexivity.
Qed.

End OpeningProperties.

(** ** Further invariants of the page *)

Lemma latestShown_stops : forall tracks l,
  latestShown (rev (map TrackStop tracks) ++ l)%list = latestShown l.
Proof.
  induction tracks as [|t tracks IH]; intro l; simpl; [reflexivity|].
  rewrite <- app_assoc. rewrite IH. reflexivity.
Qed.

Lemma classList_add_In : forall c e, In c (classList (classList_add c e)).
Proof.
  intros c e. simpl. destruct (existsb (String.eqb c) (classList e)) eqn:E.
  - apply existsb_exists in E. destruct E as (x & Hx & Hc).
    apply String.eqb_eq in Hc. subst x. exact Hx.
  - apply in_or_app. right. left. reflexivity.
Qed.

Lemma preserves_andThen : forall (P : State -> Prop) m rest,
  preserves P m ->
  (forall s, P s -> preserves P (rest s)) ->
  preserves P (andThen m rest).
Proof.
  intros P; induction m as [s|A s req k IH]; intros rest Hm Hrest; simpl in *.
  - apply Hrest. exact Hm.
  - destruct Hm as [Hs Hk]. split; [exact Hs|].
    intros outcome s' Hs'. apply IH; [apply Hk; exact Hs' | exact Hrest].
Qed.

Ltac open_sound :=
  unfold sound, steady, loopRunsOnce, recorderFollowsFlag, dropdownListsDevices,
    previewShowsStream, errorRegionShowsLatest, zoomDisplayed, resultShown in *.

(** The seven parts of [sound], in order: loop, recorder, preview, error
    region, zoom display, result area, drop-down. *)
Ltac sound_parts :=
  split; [split; [|split; [|split; [|split; [|split]]]]|].

Section SoundnessOfThePage.
Context {host : Host}.

Lemma steady_listingFrame : forall s s', steady s -> listingFrame s s' -> steady s'.
Proof.
  intros s s' (L & R & V & E & Z & A)
    (F1 & F2 & F3 & F4 & F5 & F6 & F7 & F8 & F9 & F10 & F11 & F12 & F13).
  assert (D : forall id, id <> cameraSelect -> id <> switchCameraButton ->
                         id <> selectorContainer -> dom s' id = dom s id) by exact F13.
  open_sound.
  rewrite F1, F2, F3, F4, F6, F7, F9, F11, F12.
  rewrite !D by discriminate.
  exact (conj L (conj R (conj V (conj E (conj Z A))))).
Qed.

Lemma sound_initialState : sound initialState.
Proof.
  open_sound; simpl. sound_parts; try reflexivity; try discriminate.
  right. split; reflexivity.
Qed.

Lemma sound_showError : forall msg s, sound s -> sound (showError msg s).
Proof.
  intros msg s ((L & R & V & E & Z & A) & D).
  open_sound; unfold showError; simpl.
  sound_parts; try assumption.
  intros m H. injection H as <-. split; reflexivity.
Qed.

Lemma sound_stopCurrentStream : forall s, sound s -> sound (stopCurrentStream s).
Proof.
  intros s H. rewrite stopCurrentStream_eq.
  destruct (currentStream s) as [stream|]; [|exact H].
  destruct H as ((L & R & V & E & Z & A) & D).
  open_sound; simpl. sound_parts; try assumption.
  - intros ms Hms. discriminate Hms.
  - intros m Hm. rewrite latestShown_stops in Hm. apply E. exact Hm.
Qed.

Lemma sound_storeStream : forall stream s,
  sound s ->
  sound (set_video
           {| srcObject := Some stream; paused := paused (video s);
              ended := ended (video s); videoWidth := videoWidth (video s);
              videoHeight := videoHeight (video s) |}
           (set_currentStream (Some stream) s)).
Proof.
  intros stream s ((L & R & V & E & Z & A) & D).
  open_sound; simpl. sound_parts; try assumption.
  intros ms Hms. exact Hms.
Qed.

Lemma sound_selectValue : forall v s, sound s -> sound (selectValue v s).
Proof.
  intros v s ((L & R & V & E & Z & A) & D). unfold selectValue.
  destruct (existsb _ (cameraOptions s)); open_sound; simpl;
    sound_parts; assumption.
Qed.

Lemma sound_syncDeviceSelection : forall s, sound s -> sound (syncDeviceSelection s).
Proof.
  intros s H. unfold syncDeviceSelection, initCameraFailed.
  destruct (currentStream s) as [stream|]; [|apply sound_showError; exact H].
  destruct (getVideoTracks stream) as [|track rest]; [apply sound_showError; exact H|].
  destruct (settingsDeviceId track) as [id|]; [|exact H].
  destruct (truthy id); [|exact H].
  destruct (findIndex _ (videoDevices s)) as [idx|]; [|exact H].
  cbv zeta. apply sound_selectValue.
  destruct H as ((L & R & V & E & Z & A) & D).
  open_sound; simpl. sound_parts; assumption.
Qed.

Lemma sound_zoomReset : forall s,
  sound s ->
  sound (setEl zoomValueDisplay
           (set_textContent
              (toFixed (currentZoom
                          (set_currentZoom 1 (setEl zoomSlider (set_value "1") s))) 1))
           (set_currentZoom 1 (setEl zoomSlider (set_value "1") s))).
Proof.
  intros s ((L & R & V & E & Z & A) & D).
  open_sound; simpl. sound_parts; try assumption.
  left. reflexivity.
Qed.

Lemma populateCameraList_sound : forall s, sound s -> preserves sound (populateCameraList s).
Proof.
  intros s Hs. unfold populateCameraList. simpl. split; [exact Hs|].
  intros [devices|err] s' Hs'; [|simpl; apply sound_showError; exact Hs'].
  clear Hs. cbv zeta.
  remember (filter (fun device => DeviceKind_eqb (kind device) videoinput) devices)
    as cams eqn:Hcams.
  simpl videoDevices. destruct cams as [|d rest].
  - simpl. apply sound_showError.
    destruct Hs' as ((L & R & V & E & Z & A) & D).
    unfold hideSelectorContainer. simpl.
    destruct (hasSelectorContainer s'); open_sound; simpl;
      sound_parts; try assumption; reflexivity.
  - cbn [length Nat.eqb preserves].
    rewrite appendDeviceOptions_eq. simpl cameraOptions at 1. cbv iota.
    destruct Hs' as ((L & R & V & E & Z & A) & D).
    unfold hideSelectorContainer. simpl.
    destruct (hasSelectorContainer s'); open_sound; simpl;
      sound_parts; try assumption; reflexivity.
Qed.

Lemma initCamera_sound : forall deviceId' s, sound s -> preserves sound (initCamera deviceId' s).
Proof.
  intros deviceId' s Hs. unfold initCamera. cbv zeta. simpl.
  split; [apply sound_stopCurrentStream; exact Hs|].
  intros [stream|err] s' Hs'; simpl; [|apply sound_showError; exact Hs'].
  split; [apply (sound_storeStream stream s' Hs')|].
  intros [u|err] s'' Hs''; simpl; [|apply sound_showError; exact Hs''].
  apply preserves_andThen.
  - destruct (videoDevices s'') as [|d0 ds]; [exact Hs''|].
    destruct (negb (truthy (label d0))); [apply populateCameraList_sound|]; exact Hs''.
  - intros s1 H1. apply (sound_syncDeviceSelection s1 H1).
Qed.

Lemma switchCamera_sound : forall s, sound s -> preserves sound (switchCamera s).
Proof.
  intros s Hs. unfold switchCamera.
  destruct (1 <? length (videoDevices s))%nat; [|exact Hs].
  cbv zeta.
  destruct (nth_error _ _) as [device|].
  - apply initCamera_sound.
    apply sound_zoomReset. apply sound_selectValue.
    destruct Hs as ((L & R & V & E & Z & A) & D).
    open_sound; simpl. sound_parts; assumption.
  - simpl. destruct Hs as ((L & R & V & E & Z & A) & D).
    open_sound; simpl. sound_parts; assumption.
Qed.

Lemma handleCameraSelectChange_sound : forall s,
  sound s -> preserves sound (handleCameraSelectChange s).
Proof.
  intros s Hs. unfold handleCameraSelectChange. cbv zeta.
  apply initCamera_sound. apply sound_zoomReset. exact Hs.
Qed.

Lemma startApp_sound : forall s, sound s -> preserves sound (startApp s).
Proof.
  intros s Hs. unfold startApp. apply preserves_andThen.
  - apply populateCameraList_sound. exact Hs.
  - intros s1 H1. apply initCamera_sound. exact H1.
Qed.

End SoundnessOfThePage.

Section SoundnessOfTheHandlers.
Context {host : Host}.

Lemma sound_takePicture : forall tempCtx encoded s,
  sound s -> sound (takePicture tempCtx encoded s).
Proof.
  intros tempCtx encoded s H. unfold takePicture.
  destruct (ctx s); simpl; [|exact H].
  destruct tempCtx; [|exact H].
  destruct H as ((L & R & V & E & Z & A) & D).
  open_sound; simpl. sound_parts; try assumption.
  repeat split.
Qed.

Lemma sound_toggleRecording : forall canvasStream verdict s,
  sound s -> sound (toggleRecording canvasStream verdict s).
Proof.
  intros canvasStream verdict s H. unfold toggleRecording.
  destruct (isRecording s) eqn:Hrec; simpl.
  - unfold stopRecording. destruct (mediaRecorder s) as [r|]; [|exact H].
    destruct H as ((L & R & V & E & Z & A) & D).
    open_sound; unfold updateRecordingUI; simpl.
    sound_parts; try assumption. intro Habs; discriminate Habs.
  - unfold startRecording.
    destruct (currentStream s) as [stream|] eqn:Hs;
      [|apply sound_showError; exact H].
    destruct (ctx s); [|apply sound_showError; exact H].
    destruct verdict.
    + apply sound_showError.
      destruct H as ((L & R & V & E & Z & A) & D).
      open_sound; simpl. sound_parts; assumption.
    + destruct H as ((L & R & V & E & Z & A) & D).
      open_sound; simpl. sound_parts; try assumption.
      intro Habs; rewrite Hrec in Habs; discriminate Habs.
    + destruct H as ((L & R & V & E & Z & A) & D).
      open_sound; unfold updateRecordingUI; simpl. sound_parts; try assumption.
      intros _. split; [eexists; split; reflexivity|].
      split; [reflexivity|]. split; [reflexivity|].
      apply (classList_add_In "recording" (dom s recordButton)).
Qed.

Lemma sound_zoomInput : forall v s,
  sound s -> sound (handleZoomChange (setEl zoomSlider (set_value v) s)).
Proof.
  intros v s ((L & R & V & E & Z & A) & D).
  open_sound; unfold handleZoomChange; simpl. sound_parts; try assumption.
  left. reflexivity.
Qed.

Lemma sound_saveMedia : forall iso s, sound s -> sound (saveMedia iso s).
Proof.
  intros iso s H.
  destruct (saveMedia_cases iso s) as [E|(href & name & E)];
    rewrite E; [exact H|].
  destruct H as ((L & R & V & E' & Z & A) & D).
  open_sound; simpl. sound_parts; assumption.
Qed.

Lemma sound_selectChange : forall v s,
  sound s -> sound (setEl cameraSelect (set_value v) s).
Proof.
  intros v s ((L & R & V & E & Z & A) & D).
  open_sound; simpl. sound_parts; assumption.
Qed.

Lemma sound_playing : forall stream w h s,
  srcObject (video s) = Some stream ->
  sound s ->
  sound (onplaying
           (set_video {| srcObject := Some stream; paused := false; ended := false;
                         videoWidth := w; videoHeight := h |} s)).
Proof.
  intros stream w h s Hsrc ((L & R & V & E & Z & A) & D).
  unfold onplaying. cbv zeta. simpl hasStartedDrawing.
  destruct (hasStartedDrawing s) eqn:Hstarted; simpl;
    open_sound; simpl; sound_parts; try assumption.
  - intros ms Hms. rewrite <- Hsrc. apply V. exact Hms.
  - rewrite L, Hstarted. reflexivity.
  - intros ms Hms. rewrite <- Hsrc. apply V. exact Hms.
Qed.

Lemma sound_videoStatus : forall isPaused isEnded s,
  sound s ->
  sound (set_video {| srcObject := srcObject (video s); paused := isPaused;
                      ended := isEnded; videoWidth := videoWidth (video s);
                      videoHeight := videoHeight (video s) |} s).
Proof.
  intros isPaused isEnded s ((L & R & V & E & Z & A) & D).
  open_sound; simpl. sound_parts; assumption.
Qed.

Lemma sound_animationFrame : forall n s,
  pendingFrames s = S n -> sound s -> sound (drawFrame (set_pendingFrames n s)).
Proof.
  intros n s Hn ((L & R & V & E & Z & A) & D).
  assert (Hone : hasStartedDrawing s = true /\ n = 0).
  { unfold loopRunsOnce in L. rewrite Hn in L.
    destruct (hasStartedDrawing s); [|discriminate L].
    injection L as ->. split; reflexivity. }
  destruct Hone as [Hstarted ->].
  unfold drawFrame. simpl ctx. simpl video.
  destruct (negb (ctx s) || paused (video s) || ended (video s));
    open_sound; simpl; sound_parts; try assumption;
    rewrite Hstarted; reflexivity.
Qed.

Lemma sound_ondataavailable : forall data s, sound s -> sound (ondataavailable data s).
Proof.
  intros data s H. unfold ondataavailable.
  destruct (0 <? size data)%nat; [|exact H].
  destruct H as ((L & R & V & E & Z & A) & D).
  open_sound; simpl. sound_parts; assumption.
Qed.

Lemma sound_recorderStop : forall id r s,
  mediaRecorder s = Some r ->
  sound s -> sound (onstop id (set_mediaRecorder (Some (recorderStopped r)) s)).
Proof.
  intros id r s Hr ((L & R & V & E & Z & A) & D).
  open_sound; unfold onstop; simpl. sound_parts; try assumption.
  - intro Hrec. destruct (R Hrec) as ((r' & Hr' & Hphase) & R2).
    split; [|exact R2].
    rewrite Hr in Hr'. injection Hr' as <-.
    exists r. unfold recorderStopped. rewrite Hphase. split; reflexivity.
  - repeat split.
Qed.

Lemma soundConfig_ran : forall s c,
  sound s -> Forall waitsSoundly (pending c) -> soundConfig (ran s c).
Proof. intros s c Hs Hp. split; assumption. Qed.

Lemma soundConfig_park : forall m rest,
  preserves sound m -> Forall waitsSoundly rest -> soundConfig (park m rest).
Proof.
  intros [s1|A s1 req k] rest Hm Hrest; simpl in *.
  - split; assumption.
  - destruct Hm as [H1 Hk]. split; [exact H1|].
    simpl. apply Forall_app; split; [exact Hrest|].
    constructor; [exact Hk | constructor].
Qed.

Lemma soundConfig_boot : soundConfig boot.
Proof.
  unfold boot. apply soundConfig_park; [|constructor].
  apply startApp_sound. apply sound_initialState.
Qed.

Lemma soundConfig_step : forall ev c, soundConfig c -> soundConfig (step ev c).
Proof.
  intros ev c [Hs Hp]. pose proof (conj Hs Hp : soundConfig c) as Hc.
  destruct ev; unfold step; cbv zeta.
  - destruct (disabled _); [exact Hc|].
    apply soundConfig_ran; [apply sound_takePicture; exact Hs | exact Hp].
  - destruct (disabled _); [exact Hc|].
    apply soundConfig_ran; [apply sound_toggleRecording; exact Hs | exact Hp].
  - destruct (_ || _); [exact Hc|].
    apply soundConfig_park; [apply switchCamera_sound; exact Hs | exact Hp].
  - destruct (disabled _); [exact Hc|].
    apply soundConfig_ran; [apply sound_zoomInput; exact Hs | exact Hp].
  - destruct (_ || _); [exact Hc|].
    apply soundConfig_ran; [apply sound_saveMedia; exact Hs | exact Hp].
  - destruct (_ || _); [exact Hc|].
    apply soundConfig_park; [|exact Hp].
    apply handleCameraSelectChange_sound. apply sound_selectChange. exact Hs.
  - destruct (srcObject (video (st c))) as [stream|] eqn:Hsrc; [|exact Hc].
    apply soundConfig_ran; [apply sound_playing; assumption | exact Hp].
  - apply soundConfig_ran; [apply sound_videoStatus; exact Hs | exact Hp].
  - destruct (pendingFrames (st c)) as [|n] eqn:Hn; [exact Hc|].
    apply soundConfig_ran; [apply sound_animationFrame; assumption | exact Hp].
  - destruct (mediaRecorder _); [|exact Hc].
    apply soundConfig_ran; [apply sound_ondataavailable; exact Hs | exact Hp].
  - destruct (mediaRecorder (st c)) as [r|] eqn:Hr; [|exact Hc].
    apply soundConfig_ran; [apply sound_recorderStop; assumption | exact Hp].
  - apply soundConfig_ran; [apply sound_stopCurrentStream; exact Hs | exact Hp].
  - destruct (nth_error (pending c) i) as [[A req k]|] eqn:Hnth; [|exact Hc].
    destruct (deliver req a) as [outcome|]; [|exact Hc].
    apply soundConfig_park; [|apply removeNth_Forall; exact Hp].
    apply nth_error_In in Hnth.
    rewrite Forall_forall in Hp. apply (Hp _ Hnth). exact Hs.
Qed.

Lemma soundConfig_exec : forall evs c, soundConfig c -> soundConfig (exec evs c).
Proof.
  induction evs as [|ev evs IH]; intros c Hc; simpl.
  - exact Hc.
  - apply IH. apply soundConfig_step. exact Hc.
Qed.

Lemma reachable_sound : forall c, reachable c -> sound (st c).
Proof.
  intros c [evs ->]. apply (soundConfig_exec evs boot soundConfig_boot).
Qed.

End SoundnessOfTheHandlers.

(** ** What holds in every reachable configuration *)

Section FurtherReachableProperties.
Context {host : Host}.

(** X11.  The render loop is started once and never stops: in every
    reachable configuration no frame callback is queued before the first
    [playing] event and exactly one is queued ever after. *)
Theorem render_loop_runs_once : forall c,
  reachable c ->
  pendingFrames (st c) = if hasStartedDrawing (st c) then 1 else 0.
Proof.
  intros c Hc. destruct (reachable_sound c Hc) as ((L & _) & _). exact L.
Qed.

(** X12.  In every reachable configuration in which the script is
    recording, [mediaRecorder] holds a recorder that is recording and the
    record button is in its stop guise: caption, accessible label and the
    [recording] class. *)
Theorem recording_holds_a_live_recorder : forall c,
  reachable c -> isRecording (st c) = true ->
  (exists r, mediaRecorder (st c) = Some r /\ recPhase r = recording) /\
  textContent (dom (st c) recordButtonSpan) = "停止" /\
  ariaLabel (dom (st c) recordButton) = "録画を停止する" /\
  In "recording" (classList (dom (st c) recordButton)).
Proof.
  intros c Hc Hrec. destruct (reachable_sound c Hc) as ((_ & R & _) & _).
  exact (R Hrec).
Qed.

(** X13.  In every reachable configuration in which the script is
    recording, a click on the record button stops the recording, whatever
    the platform would answer to a start: the guard of [stopRecording] finds
    a recorder, the recorder is told to stop and is finalizing, the flag is
    false and the capture button is enabled again. *)
Theorem record_click_while_recording_stops : forall c canvasStream verdict,
  reachable c -> isRecording (st c) = true ->
  exists r,
    mediaRecorder (st c) = Some r /\
    isRecording (toggleRecording canvasStream verdict (st c)) = false /\
    option_map recPhase (mediaRecorder (toggleRecording canvasStream verdict (st c)))
    = Some finalizing /\
    effects (toggleRecording canvasStream verdict (st c))
    = RecorderStopped r :: effects (st c) /\
    disabled (dom (toggleRecording canvasStream verdict (st c)) captureButton) = false /\
    recordedChunks (toggleRecording canvasStream verdict (st c)) = recordedChunks (st c).
Proof.
  intros c canvasStream verdict Hc Hrec.
  destruct (reachable_sound c Hc) as ((_ & R & _) & _).
  destruct (R Hrec) as ((r & Hr & Hphase) & _).
  exists r. split; [exact Hr|].
  unfold toggleRecording, stopRecording, recorderStop, updateRecordingUI.
  rewrite Hrec, Hr, Hphase. simpl. repeat split.
Qed.

(** X14.  In every reachable configuration the drop-down lists exactly the
    known video devices, in order: one option per device, valued by the
    device id. *)
Theorem dropdown_lists_the_devices : forall c,
  reachable c ->
  cameraOptions (st c) = optionsFrom 0 (videoDevices (st c)) /\
  map fst (cameraOptions (st c)) = map deviceId (videoDevices (st c)) /\
  length (cameraOptions (st c)) = length (videoDevices (st c)).
Proof.
  intros c Hc. destruct (reachable_sound c Hc) as (_ & D).
  unfold dropdownListsDevices in D.
  split; [exact D|].
  assert (M : map fst (cameraOptions (st c)) = map deviceId (videoDevices (st c)))
    by (rewrite D; apply optionsFrom_values).
  split; [exact M|].
  rewrite <- (length_map fst (cameraOptions (st c))), M. apply length_map.
Qed.

(** X15.  In every reachable configuration the stream held in
    [currentStream], when there is one, is the one the video element plays. *)
Theorem preview_plays_the_current_stream : forall c stream,
  reachable c -> currentStream (st c) = Some stream ->
  srcObject (video (st c)) = Some stream.
Proof.
  intros c stream Hc Hs. destruct (reachable_sound c Hc) as ((_ & _ & V & _) & _).
  exact (V stream Hs).
Qed.

(** X16.  In every reachable configuration, once [showError] has been
    called the message region is visible and shows the message of the
    latest call: no handler hides or clears it. *)
Theorem error_region_shows_latest_error : forall c msg,
  reachable c -> latestShown (effects (st c)) = Some msg ->
  hidden (dom (st c) errorMsgElement) = false /\
  textContent (dom (st c) errorMsgElement) = msg.
Proof.
  intros c msg Hc Hm. destruct (reachable_sound c Hc) as ((_ & _ & _ & E & _) & _).
  exact (E msg Hm).
Qed.

(** X17.  In every reachable configuration the zoom display shows the zoom
    in effect, printed with one digit; until the zoom is written for the
    first time the display is still the one of the markup and the zoom is
    the initial 1.0. *)
Theorem zoom_display_shows_the_zoom : forall c,
  reachable c ->
  textContent (dom (st c) zoomValueDisplay) = toFixed (currentZoom (st c)) 1 \/
  (currentZoom (st c) = 1%float /\
   dom (st c) zoomValueDisplay = markup zoomValueDisplay).
Proof.
  intros c Hc. destruct (reachable_sound c Hc) as ((_ & _ & _ & _ & Z & _) & _).
  exact Z.
Qed.

(** X18.  In every reachable configuration the result area shows the
    current artifact and hides the other element: with a photo the image is
    visible and the player hidden, with a video the player is visible and
    the image hidden; in both cases the save button is visible with the
    caption of that kind. *)
Theorem result_area_shows_the_current_artifact : forall c,
  reachable c ->
  match mediaType (st c) with
  | Some Photo =>
      hidden (dom (st c) photo) = false /\
      hidden (dom (st c) recordedVideo) = true /\
      hidden (dom (st c) saveButton) = false /\
      textContent (dom (st c) saveButtonSpan) = "写真保存"
  | Some Video =>
      hidden (dom (st c) recordedVideo) = false /\
      hidden (dom (st c) photo) = true /\
      hidden (dom (st c) saveButton) = false /\
      textContent (dom (st c) saveButtonSpan) = "動画保存"
  | None => True
  end.
Proof.
  intros c Hc. destruct (reachable_sound c Hc) as ((_ & _ & _ & _ & _ & A) & _).
  exact A.
Qed.

End FurtherReachableProperties.

(** ** The further properties on the sample page *)

Module FurtherExamples.
Import Sample.

Lemma reached : forall evs, reachable (exec evs boot).
Proof. intro evs. exists evs. reflexivity. Defined.

(** X4 on the sample page: only a microphone is enumerated. *)
Lemma no_camera_on_sample_page :
  exists s',
    settle (populateCameraList atBoot) [GotDevices [microphone]] = Some s' /\
    videoDevices s' = [] /\
    hidden (dom s' switchCameraButton) = true /\
    hidden (dom s' errorMsgElement) = false.
Proof.
  destruct (populateCameraList_without_camera atBoot [microphone] eq_refl)
    as (s' & H1 & H2 & _ & _ & H3 & _ & H4 & _).
  exists s'. split; [exact H1|]. split; [exact H2|]. split; [exact H3 | exact H4].
Defined.

(** X5 on the sample page: two cameras and a microphone are enumerated. *)
Lemma two_cameras_on_sample_page :
  exists s',
    settle (populateCameraList atBoot)
      [GotDevices [frontCamera; microphone; backCamera]] = Some s' /\
    cameraOptions s' = [("cam-front", "Front"); ("cam-back", "Back")] /\
    value (dom s' cameraSelect) = "cam-front" /\
    hidden (dom s' switchCameraButton) = false.
Proof.
  destruct (populateCameraList_lists_cameras atBoot
              [frontCamera; microphone; backCamera] frontCamera [backCamera] eq_refl)
    as (s' & H1 & _ & H2 & _ & H3 & H4 & _).
  exists s'. split; [exact H1|]. split; [exact H2|]. split; [exact H3 | exact H4].
Defined.

(** X7 on the sample page: from the first of two cameras. *)
Lemma switch_on_sample_page :
  exists device s1 constraints k,
    nth_error (videoDevices (st whileOpened))
      ((currentDeviceIndex (st whileOpened) + 1)
       mod length (videoDevices (st whileOpened))) = Some device /\
    switchCamera (st whileOpened) = Await s1 (GetUserMedia constraints) k /\
    currentDeviceIndex s1
    = (currentDeviceIndex (st whileOpened) + 1)
      mod length (videoDevices (st whileOpened)) /\
    (currentDeviceIndex (st whileOpened) + 1 = length (videoDevices (st whileOpened)) ->
     currentDeviceIndex s1 = 0) /\
    value (dom s1 cameraSelect) = deviceId device /\
    (truthy (deviceId device) = true ->
     exactDeviceId constraints = Some (deviceId device)).
Proof.
  apply (switchCamera_requests_next_device (st whileOpened)).
  - exact (Nat.lt_succ_diag_r 1).
  - reflexivity.
Defined.

(** X8 on the sample page: the stream of the first camera is open. *)
Lemma selection_follows_stream_on_sample_page :
  exists d,
    nth_error (videoDevices (st whileOpened))
      (currentDeviceIndex (syncDeviceSelection (st whileOpened))) = Some d /\
    deviceId d = "cam-front" /\
    value (dom (syncDeviceSelection (st whileOpened)) cameraSelect) = "cam-front".
Proof.
  destruct (syncDeviceSelection_selects_stream_device (st whileOpened) frontStream
              frontVideoTrack [] "cam-front" eq_refl eq_refl eq_refl eq_refl)
    as (_ & H).
  destruct H as (d & H1 & H2 & _ & H3).
  { exists frontCamera. split; [left; reflexivity | reflexivity]. }
  exists d. split; [exact H1|]. split; [exact H2|]. apply H3. reflexivity.
Defined.

(** X9 on the sample page: the second camera is opened after the first. *)
Lemma second_camera_opened_on_sample_page :
  exists s',
    settle (initCamera (Some "cam-back") (st whileOpened)) [GotStream backStream; Played]
    = Some s' /\
    currentStream s' = Some backStream /\
    srcObject (video s') = Some backStream /\
    released (st whileOpened) s'.
Proof.
  destruct (initCamera_stores_stream (Some "cam-back") (st whileOpened) backStream eq_refl)
    as (s' & H1 & H2 & H3 & H4 & _).
  exists s'. split; [exact H1|]. split; [exact H2|]. split; [exact H3 | exact H4].
Defined.

(** X10 on the sample page: the cameras were listed without labels. *)
Lemma labels_fetched_on_sample_page :
  exists s',
    settle (initCamera None unlabelledListed)
      [GotStream frontStream; Played; GotDevices [frontCamera; microphone; backCamera]]
    = Some s' /\
    cameraOptions s' = [("cam-front", "Front"); ("cam-back", "Back")].
Proof.
  destruct (initCamera_relists_unlabelled_devices None unlabelledListed
              unlabelledFront [unlabelledBack] frontStream
              [frontCamera; microphone; backCamera] eq_refl eq_refl)
    as (s' & H1 & H2 & H3 & _).
  exists s'. split; [exact H1|]. rewrite H3, H2. reflexivity.
Defined.

(** X11 on the sample page, before the first frame and after. *)
Lemma loop_on_sample_page :
  pendingFrames (st noCameraFound) = 0 /\ pendingFrames (st afterPhotoThenVideo) = 1.
Proof.
  split.
  - apply (render_loop_runs_once noCameraFound (reached _)).
  - apply (render_loop_runs_once afterPhotoThenVideo (reached _)).
Defined.

(** X12 on the sample page. *)
Lemma live_recorder_on_sample_page :
  (exists r, mediaRecorder (st whileRecordingOneChunk) = Some r /\ recPhase r = recording) /\
  textContent (dom (st whileRecordingOneChunk) recordButtonSpan) = "停止" /\
  ariaLabel (dom (st whileRecordingOneChunk) recordButton) = "録画を停止する" /\
  In "recording" (classList (dom (st whileRecordingOneChunk) recordButton)).
Proof.
  apply (recording_holds_a_live_recorder whileRecordingOneChunk (reached _) eq_refl).
Defined.

(** X13 on the sample page. *)
Lemma record_click_stops_on_sample_page :
  exists r,
    mediaRecorder (st whileRecordingOneChunk) = Some r /\
    isRecording (toggleRecording canvasCapture StartThrows (st whileRecordingOneChunk))
    = false.
Proof.
  destruct (record_click_while_recording_stops whileRecordingOneChunk canvasCapture
              StartThrows (reached _) eq_refl) as (r & H1 & H2 & _).
  exists r. split; [exact H1 | exact H2].
Defined.

(** X14 on the sample page. *)
Lemma dropdown_on_sample_page :
  map fst (cameraOptions (st whileOpened)) = map deviceId (videoDevices (st whileOpened)).
Proof.
  apply (dropdown_lists_the_devices whileOpened (reached _)).
Defined.

(** X15 on the sample page. *)
Lemma preview_on_sample_page : srcObject (video (st whileOpened)) = Some frontStream.
Proof.
  apply (preview_plays_the_current_stream whileOpened frontStream (reached _) eq_refl).
Defined.

(** X16 on the sample page: access to the cameras was denied. *)
Lemma error_on_sample_page :
  hidden (dom (st accessDenied) errorMsgElement) = false /\
  textContent (dom (st accessDenied) errorMsgElement)
  = acquisitionFailedMessage (ErrorObject "Permission denied").
Proof.
  apply (error_region_shows_latest_error accessDenied _ (reached _) eq_refl).
Defined.

(** X17 on the sample page: the slider stands at 2.5. *)
Lemma zoom_display_on_sample_page :
  textContent (dom afterZoom zoomValueDisplay) = toFixed (currentZoom afterZoom) 1 \/
  (currentZoom afterZoom = 1%float /\
   dom afterZoom zoomValueDisplay = markup zoomValueDisplay).
Proof.
  apply (zoom_display_shows_the_zoom (exec zoomed boot) (reached _)).
Defined.

(** X18 on the sample page: a photo, then a video. *)
Lemma result_area_on_sample_page :
  hidden (dom (st afterPhotoThenVideo) recordedVideo) = false /\
  hidden (dom (st afterPhotoThenVideo) photo) = true /\
  hidden (dom (st afterPhotoThenVideo) saveButton) = false /\
  textContent (dom (st afterPhotoThenVideo) saveButtonSpan) = "動画保存".
Proof.
  apply (result_area_shows_the_current_artifact afterPhotoThenVideo (reached _)).
Defined.

End FurtherExamples.
